(** * Auto_MCP: the Streamlit client of the FASTMCP sales ERP

    A shallow embedding of [streamlit_app.py] and the properties of its
    transport helper ([api_call]), its dashboard table
    ([display_projects_table]), its command console ([display_nlp_chat])
    and the server-status block of its sidebar ([display_sidebar]).

    Conventions of the embedding:
    - Python text is a [string] of UTF-8 bytes.  Case conversion acts on
      ASCII letters only; bytes above 127 are kept as they are.  This is
      Python's conversion on ASCII text, and the properties of the labels
      and of the Status cell are stated for ASCII text.
    - Values decoded from JSON are the inductive type [value]; a [dict] is
      an association list in insertion order, read by first match.
    - Python floats are IEEE binary64 values of [spec_float].
    - A script run is a computation over a [world]: the session state, the
      elements put on the page and the HTTP requests sent, in order.
      Exceptions are values; a raised exception keeps the world it was
      raised in. *)

From Stdlib Require Import ZArith List String Ascii Bool Lia.
From Stdlib Require Import DecimalString SpecFloat.
Import ListNotations.
Local Open Scope string_scope.
Local Open Scope Z_scope.
Set Warnings "-register-all".

(** ** Python values and text *)

Module Py.

(** What [response.json()] can produce. *)
Inductive value : Type :=
| VNone
| VBool (b : bool)
| VInt (z : Z)
| VFloat (f : spec_float)
| VStr (s : string)
| VList (l : list value)
| VDict (items : list (string * value)).

(** The exception classes that reach this program, all below [Exception].
    [ConnectTimeout] inherits from both [ConnectionError] and [Timeout] in
    requests; [OtherException] stands for any class not listed. *)
Inductive exception_class : Type :=
| ConnectionError | ConnectTimeout | ReadTimeout | Timeout
| HTTPError | JSONDecodeError | RequestException
| AttributeError | KeyError | TypeError | ValueError | OverflowError
| OtherException.

(** An exception of class [exn_class]; [exn_text] is what [str(e)] gives. *)
Record exn : Type := mkExn { exn_class : exception_class; exn_text : string }.

(** Pure helpers either return or raise. *)
Definition res (A : Type) : Type := (exn + A)%type.
Definition ok {A} (a : A) : res A := inr a.
Definition throw {A} (c : exception_class) (text : string) : res A :=
  inl (mkExn c text).

Definition type_name (v : value) : string :=
  match v with
  | VNone => "NoneType" | VBool _ => "bool" | VInt _ => "int"
  | VFloat _ => "float" | VStr _ => "str" | VList _ => "list"
  | VDict _ => "dict"
  end.

(** [bool(v)]: the truth value Python's [if] and [or] test. *)
Definition truthy (v : value) : bool :=
  match v with
  | VNone => false
  | VBool b => b
  | VInt z => negb (z =? 0)
  | VFloat (S754_zero _) => false
  | VFloat _ => true
  | VStr s => negb (s =? EmptyString)%string
  | VList [] => false
  | VList _ => true
  | VDict [] => false
  | VDict _ => true
  end.

(** Reading a dict. *)
Fixpoint lookup (k : string) (items : list (string * value)) : option value :=
  match items with
  | [] => None
  | (k', v) :: rest => if (k' =? k)%string then Some v else lookup k rest
  end.

Definition no_attribute {A} (v : value) (attr : string) : res A :=
  throw AttributeError
    ("'" ++ type_name v ++ "' object has no attribute '" ++ attr ++ "'").

(** The value under [k], or [default] when the key is absent. *)
Definition find (k : string) (items : list (string * value)) (default : value)
  : value :=
  match lookup k items with Some v => v | None => default end.

(** [d.get(k, default)] *)
Definition get (d : value) (k : string) (default : value) : res value :=
  match d with
  | VDict items => ok (find k items default)
  | _ => no_attribute d "get"
  end.

(** [d.items()] *)
Definition items (d : value) : res (list (string * value)) :=
  match d with
  | VDict kvs => ok kvs
  | _ => no_attribute d "items"
  end.

(** [k in d] *)
Definition contains (d : value) (k : string) : res bool :=
  match d with
  | VDict kvs => ok (match lookup k kvs with Some _ => true | None => false end)
  | VList l =>
      ok (existsb (fun x => match x with
                            | VStr s => (s =? k)%string
                            | _ => false end) l)
  | VStr s =>
      ok (match index 0 k s with Some _ => true | None => false end)
  | _ => throw TypeError
           ("argument of type '" ++ type_name d ++ "' is not iterable")
  end.

(** [d[k]] with a string key *)
Definition subscript (d : value) (k : string) : res value :=
  match d with
  | VDict kvs =>
      match lookup k kvs with
      | Some v => ok v
      | None => throw KeyError ("'" ++ k ++ "'")
      end
  | VList _ =>
      throw TypeError "list indices must be integers or slices, not str"
  | VStr _ =>
      throw TypeError "string indices must be integers, not 'str'"
  | _ => throw TypeError
           ("'" ++ type_name d ++ "' object is not subscriptable")
  end.

(** [for p in v]: the elements an iteration visits. *)
Definition iterate (v : value) : res (list value) :=
  match v with
  | VList l => ok l
  | VDict kvs => ok (map (fun kv => VStr (fst kv)) kvs)
  | VStr s => ok (map (fun c => VStr (String c EmptyString)) (list_ascii_of_string s))
  | _ => throw TypeError
           ("'" ++ type_name v ++ "' object is not iterable")
  end.

(** *** Text *)

Definition is_lower (c : ascii) : bool :=
  let n := nat_of_ascii c in (97 <=? n)%nat && (n <=? 122)%nat.
Definition is_upper (c : ascii) : bool :=
  let n := nat_of_ascii c in (65 <=? n)%nat && (n <=? 90)%nat.
Definition is_cased (c : ascii) : bool := is_lower c || is_upper c.
Definition to_upper (c : ascii) : ascii :=
  if is_lower c then ascii_of_nat (nat_of_ascii c - 32) else c.
Definition to_lower (c : ascii) : ascii :=
  if is_upper c then ascii_of_nat (nat_of_ascii c + 32) else c.

(** [s.upper()], on the bytes of the text: the letters a-z are raised and
    every other byte is kept.  On text of ASCII characters this is
    [str.upper]; text with other cased characters is outside it, and the
    properties of the Status cell and of the labels are stated for ASCII
    text. *)
Fixpoint upper (s : string) : string :=
  match s with
  | EmptyString => EmptyString
  | String c r => String (to_upper c) (upper r)
  end.

(** [s.replace(a, b)] for one-character [a] and [b]. *)
Fixpoint replace (a b : ascii) (s : string) : string :=
  match s with
  | EmptyString => EmptyString
  | String c r => String (if Ascii.eqb c a then b else c) (replace a b r)
  end.

(** [s.title()]: a letter that follows a letter is lowered, any other
    letter is raised.  The letters are a-z and A-Z: on text of ASCII
    characters this is [str.title]. *)
Fixpoint title_from (previous_is_cased : bool) (s : string) : string :=
  match s with
  | EmptyString => EmptyString
  | String c r =>
      String (if previous_is_cased then to_lower c else to_upper c)
             (title_from (is_cased c) r)
  end.
Definition title (s : string) : string := title_from false s.

(** [s[:n]]: the first [n] code points of UTF-8 text.  A byte [10xxxxxx]
    continues the code point before it. *)
Definition is_continuation (c : ascii) : bool :=
  let n := nat_of_ascii c in (128 <=? n)%nat && (n <? 192)%nat.
Fixpoint prefix (n : nat) (s : string) : string :=
  match s with
  | EmptyString => EmptyString
  | String c r =>
      if is_continuation c then String c (prefix n r)
      else match n with
           | O => EmptyString
           | S n' => String c (prefix n' r)
           end
  end.

(** *** Numbers as text *)

(** [str(z)] for an int. *)
Definition decimal (z : Z) : string := NilZero.string_of_int (Z.to_int z).

(** The [,] option of the format mini-language: digits in groups of three. *)
Fixpoint group_reversed (k : nat) (l : list ascii) : list ascii :=
  match l with
  | [] => []
  | c :: r =>
      match r with
      | [] => [c]
      | _ => if (k =? 2)%nat then c :: ","%char :: group_reversed 0 r
             else c :: group_reversed (S k) r
      end
  end.
Definition thousands (digits : string) : string :=
  string_of_list_ascii
    (rev (group_reversed 0 (rev (list_ascii_of_string digits)))).

Definition binary64 (m e : Z) : spec_float := binary_normalize 53 1024 m e false.

(** [float(z)]: the nearest binary64 value, ties to even. *)
Definition float_of_int (z : Z) : res spec_float :=
  match binary64 z 0 with
  | S754_infinity _ => throw OverflowError "int too large to convert to float"
  | f => ok f
  end.

(** [m * 2^e] rounded to the nearest integer, ties to even. *)
Definition round_half_even (m : positive) (e : Z) : Z :=
  if 0 <=? e then Zpos m * 2 ^ e
  else
    let d := 2 ^ (- e) in
    let q := Zpos m / d in
    match 2 * (Zpos m mod d) ?= d with
    | Lt => q
    | Eq => if Z.even q then q else q + 1
    | Gt => q + 1
    end.

Definition sign (s : bool) : string := if s then "-" else EmptyString.

(** A float under the format [.0f] ([grouped = false]) or [,.0f]. *)
Definition float_f0 (grouped : bool) (f : spec_float) : string :=
  match f with
  | S754_zero s => sign s ++ "0"
  | S754_infinity s => sign s ++ "inf"
  | S754_nan => "nan"
  | S754_finite s m e =>
      let digits := decimal (round_half_even m e) in
      sign s ++ (if grouped then thousands digits else digits)
  end.

Definition bad_format {A} (v : value) (code : string) : res A :=
  match v with
  | VStr _ =>
      throw ValueError
        ("Unknown format code '" ++ code ++ "' for object of type 'str'")
  | _ =>
      throw TypeError
        ("unsupported format string passed to " ++ type_name v ++ ".__format__")
  end.

(** The number a float format code sees: an int or bool is converted. *)
Definition as_float (v : value) (code : string) : res spec_float :=
  match v with
  | VFloat f => ok f
  | VInt z => float_of_int z
  | VBool b => float_of_int (if b then 1 else 0)
  | _ => bad_format v code
  end.

(** [f"{v:,.0f}"] *)
Definition format_comma_f0 (v : value) : res string :=
  match as_float v "f" with
  | inl e => inl e
  | inr f => ok (float_f0 true f)
  end.

(** [f"{v:.0%}"]: the value times 100, no decimals, a percent sign. *)
Definition format_percent0 (v : value) : res string :=
  match as_float v "%" with
  | inl e => inl e
  | inr f => ok (float_f0 false (SFmul 53 1024 f (binary64 100 0)) ++ "%")
  end.

End Py.

(** ** The requests library, as far as the client uses it *)

Module Requests.
Import Py.

Record request : Type := mkRequest {
  verb : string;
  url : string;
  json : option value;
  timeout : Z
}.

(** [decoded] is what [response.json()] does with the body: the decoded
    value, or the exception the decoder raises. *)
Record response : Type := mkResponse {
  status_code : Z;
  reason : string;
  response_url : string;
  decoded : res value
}.

(** What sending a request leads to, given the requests sent before it:
    a response, or the exception [requests.get] / [requests.post] raises. *)
Definition backend : Type := list request -> request -> res response.

(** [response.raise_for_status()] *)
Definition raise_for_status (r : response) : res unit :=
  let describe kind :=
    decimal (status_code r) ++ " " ++ kind ++ " Error: " ++ reason r
      ++ " for url: " ++ response_url r in
  if (400 <=? status_code r) && (status_code r <? 500)
  then throw HTTPError (describe "Client")
  else if (500 <=? status_code r) && (status_code r <? 600)
  then throw HTTPError (describe "Server")
  else ok tt.

(** [except requests.exceptions.ConnectionError] *)
Definition is_connection_error (e : exn) : bool :=
  match exn_class e with
  | ConnectionError | ConnectTimeout => true
  | _ => false
  end.

(** [except requests.exceptions.Timeout] *)
Definition is_timeout (e : exn) : bool :=
  match exn_class e with
  | Timeout | ReadTimeout | ConnectTimeout => true
  | _ => false
  end.

End Requests.

(** ** A Streamlit script run *)

Module Streamlit.
Import Py Requests.

(** [st.session_state]; a field is [None] while the key is not set. *)
Record session_state : Type := mkSession {
  user_id : option value;
  user_role : option value;
  chat_messages : option (list value)
}.

(** What a run puts on the page.  Columns and the sidebar only place
    elements, so they leave no trace here. *)
Inductive element : Type :=
| Title (text : string)
| Subheader (text : string)
| Write (text : string)
| WriteValue (v : value)
| Info (text : string)
| Success (text : string)
| Error (text : string)
| Spinner (text : string)
| TextInput (label : string)
| Button (label : string)
| Dataframe (rows : list value)
| Expander (label : string) (body : list element).

Record world : Type := mkWorld {
  session : session_state;
  page : list element;
  sent : list request
}.

(** A computation returns or raises, and leaves a world behind. *)
Definition M (A : Type) : Type := world -> res A * world.

Definition ret {A} (a : A) : M A := fun w => (ok a, w).
Definition bind {A B} (m : M A) (k : A -> M B) : M B :=
  fun w => match m w with
           | (inl e, w') => (inl e, w')
           | (inr a, w') => k a w'
           end.
Definition lift {A} (r : res A) : M A := fun w => (r, w).
Definition try_except {A} (body : M A) (handler : exn -> M A) : M A :=
  fun w => match body w with
           | (inl e, w') => handler e w'
           | r => r
           end.

Fixpoint for_each {A} (l : list A) (body : A -> M unit) : M unit :=
  match l with
  | [] => ret tt
  | x :: r => bind (body x) (fun _ => for_each r body)
  end.

(** A list comprehension: the results in order, or the first exception. *)
Fixpoint comprehension {A B} (l : list A) (f : A -> M B) : M (list B) :=
  match l with
  | [] => ret []
  | x :: r =>
      bind (f x) (fun y => bind (comprehension r f) (fun ys => ret (y :: ys)))
  end.

Definition show (e : element) : M unit :=
  fun w => (ok tt, mkWorld (session w) (page w ++ [e]) (sent w)).

Definition read_session : M session_state := fun w => (ok (session w), w).
Definition write_session (s : session_state) : M unit :=
  fun w => (ok tt, mkWorld s (page w) (sent w)).

(** [st.session_state.<name>] *)
Definition attribute {A} (name : string) (field : option A) : M A :=
  match field with
  | Some a => ret a
  | None =>
      lift (throw AttributeError
              ("st.session_state has no attribute '" ++ name ++ "'"))
  end.

End Streamlit.

(** ** streamlit_app.py *)

Module App.
Import Py Requests Streamlit.

Notation "x <- m ;; k" := (bind m (fun x => k))
  (at level 61, m at next level, right associativity).
Notation "m ;; k" := (bind m (fun _ => k))
  (at level 61, right associativity).

Definition API_BASE_URL : string := "http://localhost:8000".

(** [{"success": False, "error": error}] *)
Definition failure (error : string) : value :=
  VDict [("success", VBool false); ("error", VStr error)].

Section Run.

(** The server behind [API_BASE_URL]. *)
Variable server : backend.

(** [repr] of a float (the shortest text that reads back as the same
    float) and of a list or dict: the interpreter's, taken as given. *)
Variable float_repr : spec_float -> string.
Variable container_repr : value -> string.

(** [str(v)], which an f-string applies to [{v}]. *)
Definition str (v : value) : string :=
  match v with
  | VNone => "None"
  | VBool true => "True"
  | VBool false => "False"
  | VInt z => decimal z
  | VFloat f => float_repr f
  | VStr s => s
  | VList _ | VDict _ => container_repr v
  end.

(** [requests.get(url, timeout=t)] and [requests.post(url, json=d, timeout=t)] *)
Definition send (r : request) : M response :=
  fun w => (server (sent w) r, mkWorld (session w) (page w) (sent w ++ [r])).
Definition requests_get (url : string) (timeout : Z) : M response :=
  send (mkRequest "GET" url None timeout).
Definition requests_post (url : string) (data : option value) (timeout : Z)
  : M response :=
  send (mkRequest "POST" url data timeout).

Definition initialize_session : M unit :=
  s <- read_session ;;
  (match user_id s with
   | None => write_session (mkSession (Some (VInt 1)) (user_role s) (chat_messages s))
   | Some _ => ret tt
   end) ;;
  s <- read_session ;;
  (match user_role s with
   | None => write_session (mkSession (user_id s) (Some (VStr "manager")) (chat_messages s))
   | Some _ => ret tt
   end) ;;
  s <- read_session ;;
  match chat_messages s with
  | None => write_session (mkSession (user_id s) (user_role s) (Some []))
  | Some _ => ret tt
  end.

Definition api_call (endpoint method : string) (data : option value) : M value :=
  let url := API_BASE_URL ++ endpoint in
  let finish (response : response) : M value :=
    lift (raise_for_status response) ;;
    lift (decoded response) in
  try_except
    (if (method =? "GET")%string then
       response <- requests_get url 10 ;;
       finish response
     else if (method =? "POST")%string then
       response <- requests_post url data 10 ;;
       finish response
     else
       ret (failure ("Unknown method: " ++ method)))
    (fun e =>
       if is_connection_error e then
         ret (failure "Cannot connect to API server. Is it running on port 8000?")
       else if is_timeout e then
         ret (failure "API request timed out")
       else
         ret (failure (exn_text e))).

Definition process_nlp_message (message : string) (user_id : value) : M value :=
  api_call "/api/mcp/message" "POST"
    (Some (VDict [("message", VStr message); ("user_id", user_id)])).

(** One row of the projects table: the dict literal, entry by entry. *)
Definition project_row (p : value) : M value :=
  name <- lift (get p "name" (VStr "N/A")) ;;
  client <- lift (get p "client" (VStr "N/A")) ;;
  status <- lift (get p "status" (VStr "N/A")) ;;
  status_upper <- lift (match status with
                        | VStr s => ok (upper s)
                        | _ => no_attribute status "upper"
                        end) ;;
  present <- lift (get p "estimated_value" VNone) ;;
  shown <- (if truthy present then
              v <- lift (get p "estimated_value" (VInt 0)) ;;
              amount <- lift (format_comma_f0 v) ;;
              ret ("₹" ++ amount)
            else ret "N/A") ;;
  ret (VDict [("Project", name); ("Client", client);
              ("Status", VStr status_upper); ("Value", VStr shown)]).

Definition display_projects_table (projects : value) : M unit :=
  if negb (truthy projects) then
    show (Info "No projects found")
  else
    ps <- lift (iterate projects) ;;
    df <- comprehension ps project_row ;;
    show (Dataframe df).

(** [key.replace('_', ' ').title()] *)
Definition humanize (key : string) : string := title (replace "_" " " key).

(** [f"- **{key.replace('_', ' ').title()}**: {value}"] *)
Definition entry_line (kv : string * value) : string :=
  "- **" ++ humanize (fst kv) ++ "**: " ++ str (snd kv).

Definition reserved : list string :=
  ["intent"; "action"; "confidence"; "original_message"; "timestamp"].

(** [k not in [...]] *)
Definition not_reserved (kv : string * value) : bool :=
  negb (existsb (String.eqb (fst kv)) reserved).

(** [l[-n:]] for [n > 0]; [l[-0:]] is the whole list. *)
Definition last_slice {A} (n : nat) (l : list A) : list A :=
  match n with
  | O => l
  | _ => skipn (List.length l - n) l
  end.

(** [v[:n]] *)
Definition first_slice (n : nat) (v : value) : res value :=
  match v with
  | VStr s => ok (VStr (prefix n s))
  | VList l => ok (VList (firstn n l))
  | _ => throw TypeError
           ("'" ++ type_name v ++ "' object is not subscriptable")
  end.

(** The double quote character. *)
Definition dq : string := String "034"%char EmptyString.
Definition nl : string := String "010"%char EmptyString.

Definition chat_examples : string :=
  nl ++ "    Send natural language messages to automate sales operations." ++
  nl ++ "    Examples:" ++
  nl ++ "    - " ++ dq ++ "Google ka iss week ka 1.2 lakh payment aa gaya" ++ dq ++
  nl ++ "    - " ++ dq ++ "Ramesh is assigned to Google project" ++ dq ++
  nl ++ "    - " ++ dq ++ "Google project active karo" ++ dq ++
  nl ++ "    - " ++ dq ++ "Dharmendra ke sare active project dikhado" ++ dq ++
  nl ++ "    ".

(** [message] is what the text input holds and [send_button] whether the
    button was pressed, for this run. *)
Definition display_nlp_chat (message : string) (send_button : bool) : M unit :=
  show (Title "💬 NLP Message Processor") ;;
  show (Write chat_examples) ;;
  show (TextInput "Enter your message:") ;;
  show (Button "Send") ;;
  (if send_button && negb (message =? EmptyString)%string then
     show (Spinner "Processing message...") ;;
     s <- read_session ;;
     uid <- attribute "user_id" (user_id s) ;;
     result <- process_nlp_message message uid ;;
     success <- lift (get result "success" VNone) ;;
     if truthy success then
       show (Success "✅ Message processed successfully!") ;;
       parsed <- lift (get result "parsed" (VDict [])) ;;
       show (Subheader "🔍 Parsed Intent") ;;
       intent <- lift (get parsed "intent" (VStr "N/A")) ;;
       show (Write ("**Intent**: " ++ str intent)) ;;
       action <- lift (get parsed "action" (VStr "N/A")) ;;
       show (Write ("**Action**: " ++ str action)) ;;
       confidence <- lift (get parsed "confidence" (VInt 0)) ;;
       percent <- lift (format_percent0 confidence) ;;
       show (Write ("**Confidence**: " ++ percent)) ;;
       show (Subheader "📋 Extracted Entities") ;;
       parsed_items <- lift (items parsed) ;;
       let entities := filter not_reserved parsed_items in
       (match entities with
        | [] => ret tt
        | _ => for_each entities (fun kv => show (Write (entry_line kv)))
        end) ;;
       execution <- lift (get result "execution" (VDict [])) ;;
       executed <- lift (get execution "success" VNone) ;;
       if truthy executed then
         show (Subheader "✨ Execution Result") ;;
         status <- lift (get execution "action" (VStr "N/A")) ;;
         show (Write ("**Status**: " ++ str status)) ;;
         data <- lift (get execution "data" (VDict [])) ;;
         data_items <- lift (items data) ;;
         for_each data_items (fun kv => show (Write (entry_line kv)))
       else ret tt
     else
       error <- lift (get result "error" (VStr "Unknown error")) ;;
       show (Error ("❌ Error: " ++ str error))
   else ret tt) ;;
  show (Subheader "📝 Message History") ;;
  s <- read_session ;;
  history <- attribute "chat_messages" (chat_messages s) ;;
  match history with
  | [] => show (Info "No messages yet. Send a message to get started!")
  | _ =>
      for_each (last_slice 5 history) (fun msg =>
        text <- lift (subscript msg "message") ;;
        head <- lift (first_slice 50 text) ;;
        show (Expander ("📨 " ++ str head ++ "...") [WriteValue msg]))
  end.

(** The server-status block of [display_sidebar]. *)
Definition display_sidebar_server_status : M unit :=
  show (Subheader "🔗 Server Status") ;;
  health <- api_call "/health" "GET" None ;;
  success <- lift (get health "success" VNone) ;;
  connected <- (if truthy success then ret true
                else lift (contains health "status")) ;;
  if connected then
    version <- lift (get health "version" (VStr "unknown")) ;;
    show (Success ("✅ Connected (v" ++ str version ++ ")"))
  else
    show (Error "❌ Cannot connect to API server").

End Run.
End App.

(** ** Pages with more widgets

    The dashboards, the sidebar and [main] use widgets the console does
    not.  A [screen] is a world whose page holds [widget]s; a computation
    of the console runs inside it by [run], its elements appended as they
    come. *)

Module Layout.
Import Py Requests Streamlit.

(** A hashable value: what can be a dict key, and so a selectbox option. *)
Inductive key : Type :=
| KNone
| KBool (b : bool)
| KInt (z : Z)
| KFloat (f : spec_float)
| KStr (s : string).

Definition value_of_key (k : key) : value :=
  match k with
  | KNone => VNone
  | KBool b => VBool b
  | KInt z => VInt z
  | KFloat f => VFloat f
  | KStr s => VStr s
  end.

(** [hash(v)] succeeds or raises for a list or dict. *)
Definition as_key (v : value) : res key :=
  match v with
  | VNone => ok KNone
  | VBool b => ok (KBool b)
  | VInt z => ok (KInt z)
  | VFloat f => ok (KFloat f)
  | VStr s => ok (KStr s)
  | VList _ | VDict _ =>
      throw TypeError ("unhashable type: '" ++ type_name v ++ "'")
  end.

(** The number a key stands for: [n * 2^e], an infinity, or nan. *)
Inductive number : Type :=
| Finite (n e : Z)
| Infinite (negative : bool)
| NotANumber.

Definition number_of (k : key) : option number :=
  match k with
  | KBool b => Some (Finite (if b then 1 else 0) 0)
  | KInt z => Some (Finite z 0)
  | KFloat (S754_zero _) => Some (Finite 0 0)
  | KFloat (S754_finite s m e) =>
      Some (Finite (if s then Zneg m else Zpos m) e)
  | KFloat (S754_infinity s) => Some (Infinite s)
  | KFloat S754_nan => Some NotANumber
  | KNone | KStr _ => None
  end.

Definition number_eqb (a b : number) : bool :=
  match a, b with
  | Finite n1 e1, Finite n2 e2 =>
      let e := Z.min e1 e2 in
      n1 * 2 ^ (e1 - e) =? n2 * 2 ^ (e2 - e)
  | Infinite s1, Infinite s2 => Bool.eqb s1 s2
  | _, _ => false
  end.

(** [a == b] for hashable values: numbers by value, whatever their type;
    text by text; [None] with [None]. *)
Definition key_eqb (a b : key) : bool :=
  match number_of a, number_of b with
  | Some x, Some y => number_eqb x y
  | None, None =>
      match a, b with
      | KNone, KNone => true
      | KStr s, KStr t => (s =? t)%string
      | _, _ => false
      end
  | _, _ => false
  end.

(** [v == k] where [k] is hashable: a list or dict equals none of them. *)
Definition equals_key (v : value) (k : key) : bool :=
  match as_key v with
  | inl _ => false
  | inr kv => key_eqb kv k
  end.

(** [d[k] = v] on a dict in insertion order: a key already there keeps
    its place and takes the new value. *)
Fixpoint dict_set {V} (k : key) (v : V) (d : list (key * V)) : list (key * V) :=
  match d with
  | [] => [(k, v)]
  | (k', v') :: rest =>
      if key_eqb k' k then (k', v) :: rest else (k', v') :: dict_set k v rest
  end.

Inductive widget : Type :=
| Basic (e : element)
| Metric (label shown : string)
| Divider
| Selectbox (label : string) (options : list (key * string))
| Radio (label : string) (options : list string)
| Markdown (text : string).

Record screen : Type := mkScreen {
  state : session_state;
  widgets : list widget;
  requests : list request
}.

Definition P (A : Type) : Type := screen -> res A * screen.

Definition done {A} (a : A) : P A := fun s => (ok a, s).
Definition and_then {A B} (m : P A) (k : A -> P B) : P B :=
  fun s => match m s with
           | (inl e, s') => (inl e, s')
           | (inr a, s') => k a s'
           end.
Definition fail {A} (r : res A) : P A := fun s => (r, s).
Definition place (w : widget) : P unit :=
  fun s => (ok tt, mkScreen (state s) (widgets s ++ [w]) (requests s)).

(** A computation of the console, run on this screen. *)
Definition run {A} (m : M A) : P A :=
  fun s =>
    match m (mkWorld (state s) [] (requests s)) with
    | (r, w) =>
        (r, mkScreen (session w) (widgets s ++ map Basic (page w)) (sent w))
    end.

End Layout.

(** ** streamlit_app.py, the dashboards, the sidebar and [main] *)

Module Views.
Import Py Requests Streamlit App Layout.

Declare Scope page_scope.
Delimit Scope page_scope with page.
Notation "x <- m ;; k" := (and_then m (fun x => k))
  (at level 61, m at next level, right associativity) : page_scope.
Notation "m ;; k" := (and_then m (fun _ => k))
  (at level 61, right associativity) : page_scope.

(** The pages [st.radio] offers. *)
Inductive nav : Type := Dashboard | NLPChat | About.

Definition nav_name (page : nav) : string :=
  match page with
  | Dashboard => "Dashboard"
  | NLPChat => "NLP Chat"
  | About => "About"
  end.

Definition sidebar_about : string :=
  nl ++ "        **FASTMCP – Sales Team Automation ERP**" ++
  nl ++ "        " ++
  nl ++ "        Version: 1.0.0" ++
  nl ++ "        " ++
  nl ++ "        A comprehensive MCP server for managing sales teams, projects, employees, and payments." ++
  nl ++ "        ".

Definition about_text : string :=
  nl ++ "        ## FASTMCP – Sales Team Automation ERP" ++
  nl ++ "        " ++
  nl ++ "        FASTMCP is a comprehensive **MCP Server** built with **FastAPI**, **PostgreSQL**, " ++
  nl ++ "        and **SQLAlchemy ORM** for automating sales team workflows." ++
  nl ++ "        " ++
  nl ++ "        ### Key Features" ++
  nl ++ "        " ++
  nl ++ "        - **Sales Project Management** – Track multiple projects per client" ++
  nl ++ "        - **Team Management** – Assign employees to projects with duration tracking" ++
  nl ++ "        - **Payment Tracking** – Record and track weekly/pending payments" ++
  nl ++ "        - **NLP Automation** – Convert natural language messages into database actions" ++
  nl ++ "        - **Role-Based Dashboards** – Separate views for Managers and Executives" ++
  nl ++ "        " ++
  nl ++ "        ### Technology Stack" ++
  nl ++ "        " ++
  nl ++ "        - **Backend**: FastAPI + fastmcp" ++
  nl ++ "        - **Database**: PostgreSQL + SQLAlchemy ORM" ++
  nl ++ "        - **Frontend**: Streamlit (this app) + React" ++
  nl ++ "        - **Language**: Python 3.11+" ++
  nl ++ "        " ++
  nl ++ "        ### Example NLP Commands" ++
  nl ++ "        " ++
  nl ++ "        - " ++ dq ++ "Google ka iss week ka 1.2 lakh payment aa gaya" ++ dq ++
  nl ++ "        - " ++ dq ++ "Ramesh is assigned to Google project" ++ dq ++
  nl ++ "        - " ++ dq ++ "Google project active karo" ++ dq ++
  nl ++ "        - " ++ dq ++ "Dharmendra ke sare active project dikhado" ++ dq ++
  nl ++ "        " ++
  nl ++ "        ### Getting Started" ++
  nl ++ "        " ++
  nl ++ "        1. Ensure the FastAPI server is running on `http://localhost:8000`" ++
  nl ++ "        2. Select a user from the sidebar" ++
  nl ++ "        3. Navigate to Dashboard or NLP Chat" ++
  nl ++ "        4. Explore the features!" ++
  nl ++ "        " ++
  nl ++ "        ### Documentation" ++
  nl ++ "        " ++
  nl ++ "        For more information, see `FASTMCP_README.md` in the project root." ++
  nl ++ "        ".

Section Run.

Variable server : backend.
Variable float_repr : spec_float -> string.
Variable container_repr : value -> string.

#[local] Abbreviation text_of := (str float_repr container_repr).

Definition get_manager_dashboard (manager_id : value) : M value :=
  api_call server ("/api/manager/dashboard/" ++ text_of manager_id) "GET" None.

Definition get_executive_dashboard (executive_id : value) : M value :=
  api_call server ("/api/executive/dashboard/" ++ text_of executive_id)
    "GET" None.

Definition get_users : M value := api_call server "/api/users" "GET" None.

Local Open Scope page_scope.

(** [st.metric(label, value)]: None is shown as a dash, a number or text
    as [str] gives it, and a list or dict is refused. *)
Definition st_metric (label : string) (v : value) : P unit :=
  match v with
  | VNone => place (Metric label "—")
  | VList _ | VDict _ =>
      fail (throw TypeError
              ("'" ++ text_of v ++ "' is of type <class '" ++ type_name v
               ++ "'>, which is not an accepted type."
               ++ " value only accepts: int, float, str, or None."
               ++ " Please convert the value to an accepted type."))
  | _ => place (Metric label (text_of v))
  end.

Definition display_metrics (statistics : value) : P unit :=
  total <- fail (get statistics "total_projects" (VInt 0)) ;;
  st_metric "Total Projects" total ;;
  active <- fail (get statistics "active_projects" (VInt 0)) ;;
  st_metric "Active Projects" active ;;
  revenue <- fail (get statistics "total_revenue" (VInt 0)) ;;
  amount <- fail (format_comma_f0 revenue) ;;
  st_metric "Total Revenue" (VStr ("₹" ++ amount)) ;;
  pending <- fail (get statistics "pending_payments_count" (VInt 0)) ;;
  st_metric "Pending Payments" pending.

Definition display_manager_dashboard : P unit :=
  run (show (Title "👔 Manager Dashboard")) ;;
  s <- run read_session ;;
  uid <- run (attribute "user_id" (user_id s)) ;;
  result <- run (get_manager_dashboard uid) ;;
  success <- fail (get result "success" VNone) ;;
  if negb (truthy success) then
    error <- fail (get result "error" (VStr "Unknown error")) ;;
    run (show (Error ("Error loading dashboard: " ++ text_of error)))
  else
    run (show (Subheader "📊 Key Metrics")) ;;
    statistics <- fail (get result "statistics" (VDict [])) ;;
    display_metrics statistics ;;
    run (show (Subheader "📁 All Projects")) ;;
    projects <- fail (get result "projects" (VList [])) ;;
    run (display_projects_table projects) ;;
    run (show (Subheader "💰 Revenue Summary")) ;;
    stats <- fail (get result "statistics" (VDict [])) ;;
    revenue <- fail (get stats "total_revenue" (VInt 0)) ;;
    amount <- fail (format_comma_f0 revenue) ;;
    active <- fail (get stats "active_projects" (VInt 0)) ;;
    total <- fail (get stats "total_projects" (VInt 0)) ;;
    run (show (Write
      (nl ++ "        - **Total Revenue**: ₹" ++ amount ++
       nl ++ "        - **Active Projects**: " ++ text_of active ++
       nl ++ "        - **Total Projects**: " ++ text_of total ++
       nl ++ "        "))) ;;
    run (show (Subheader "⚠️ Pending Items")) ;;
    stats <- fail (get result "statistics" (VDict [])) ;;
    pending <- fail (get stats "pending_payments_count" (VInt 0)) ;;
    run (show (Write
      (nl ++ "        - **Pending Payments**: " ++ text_of pending ++
       nl ++ "        "))).

Definition display_executive_dashboard : P unit :=
  run (show (Title "👤 Executive Dashboard")) ;;
  s <- run read_session ;;
  uid <- run (attribute "user_id" (user_id s)) ;;
  result <- run (get_executive_dashboard uid) ;;
  success <- fail (get result "success" VNone) ;;
  if negb (truthy success) then
    error <- fail (get result "error" (VStr "Unknown error")) ;;
    run (show (Error ("Error loading dashboard: " ++ text_of error)))
  else
    run (show (Subheader "📊 Your Projects")) ;;
    statistics <- fail (get result "statistics" (VDict [])) ;;
    display_metrics statistics ;;
    run (show (Subheader "📁 My Projects")) ;;
    projects <- fail (get result "projects" (VList [])) ;;
    run (display_projects_table projects).

(** [{u["id"]: f"{u['name']} ({u['role']})" for u in users}]: for each
    user the key, then the label, then the insertion, which hashes. *)
Fixpoint user_options_from (d : list (key * string)) (users : list value)
  : res (list (key * string)) :=
  match users with
  | [] => ok d
  | u :: rest =>
      match subscript u "id" with inl e => inl e | inr id =>
      match subscript u "name" with inl e => inl e | inr name =>
      match subscript u "role" with inl e => inl e | inr role =>
      match as_key id with inl e => inl e | inr k =>
      user_options_from
        (dict_set k (text_of name ++ " (" ++ text_of role ++ ")") d) rest
      end end end end
  end.

(** What [st.selectbox(options, index=0)] returns: the option the user
    chose, the first one until they choose, [None] when there is none. *)
Definition selectbox (options : list key) (choice : nat) : key :=
  match options with
  | [] => KNone
  | first :: _ => nth choice options first
  end.

(** [next((u for u in users if u["id"] == selected), None)] *)
Fixpoint first_user (users : list value) (selected : key)
  : res (option value) :=
  match users with
  | [] => ok None
  | u :: rest =>
      match subscript u "id" with
      | inl e => inl e
      | inr id =>
          if equals_key id selected then ok (Some u)
          else first_user rest selected
      end
  end.

(** [choice] is the option chosen in the selectbox and [page] the page
    chosen in the radio, for this run. *)
Definition display_sidebar (choice : nat) (page : nav) : P string :=
  run (show (Title "⚙️ Settings")) ;;
  run (show (Subheader "👤 User Profile")) ;;
  users_result <- run get_users ;;
  loaded <- fail (get users_result "success" VNone) ;;
  (if truthy loaded then
     users <- fail (get users_result "users" (VList [])) ;;
     us <- fail (iterate users) ;;
     user_options <- fail (user_options_from [] us) ;;
     place (Selectbox "Select User:" user_options) ;;
     let selected_user_id := selectbox (map fst user_options) choice in
     s <- run read_session ;;
     run (write_session
            (mkSession (Some (value_of_key selected_user_id))
               (user_role s) (chat_messages s))) ;;
     selected_user <- fail (first_user us selected_user_id) ;;
     match selected_user with
     | Some u =>
         if truthy u then
           role <- fail (subscript u "role") ;;
           s <- run read_session ;;
           run (write_session
                  (mkSession (user_id s) (Some role) (chat_messages s)))
         else done tt
     | None => done tt
     end
   else run (show (Error "Could not load users"))) ;;
  place Divider ;;
  run (show (Subheader "📍 Navigation")) ;;
  place (Radio "Select Page:" ["Dashboard"; "NLP Chat"; "About"]) ;;
  place Divider ;;
  run (display_sidebar_server_status server float_repr container_repr) ;;
  place Divider ;;
  run (show (Subheader "ℹ️ About")) ;;
  run (show (Write sidebar_about)) ;;
  done (nav_name page).

(** [message] and [send_button] are the console's inputs, read only when
    the console is the page shown. *)
Definition main (choice : nat) (page : nav) (message : string)
    (send_button : bool) : P unit :=
  run initialize_session ;;
  page <- display_sidebar choice page ;;
  if (page =? "Dashboard")%string then
    s <- run read_session ;;
    role <- run (attribute "user_role" (user_role s)) ;;
    if equals_key role (KStr "manager") then display_manager_dashboard
    else display_executive_dashboard
  else if (page =? "NLP Chat")%string then
    run (display_nlp_chat server float_repr container_repr message send_button)
  else if (page =? "About")%string then
    run (show (Title "📖 About FASTMCP")) ;;
    place (Markdown about_text)
  else done tt.

End Run.
End Views.

Import Py Requests Streamlit App.
Import Layout Views.

(** ** Vocabulary of the properties *)

(** A session in which nothing is set yet, and a run that starts in it. *)
Definition fresh_session : session_state := mkSession None None None.
Definition fresh_world : world := mkWorld fresh_session [] [].

(** The world with more elements on the page. *)
Definition with_page (w : world) (more : list element) : world :=
  mkWorld (session w) (page w ++ more) (sent w).

(** The world with one more request sent. *)
Definition with_sent (w : world) (r : request) : world :=
  mkWorld (session w) (page w) (sent w ++ [r]).

(** The request [api_call] sends for the method GET or POST. *)
Definition request_for (endpoint method : string) (data : option value)
  : request :=
  if (method =? "GET")%string
  then mkRequest "GET" (API_BASE_URL ++ endpoint) None 10
  else mkRequest "POST" (API_BASE_URL ++ endpoint) data 10.

(** The ways an exchange with the server ends in an exception: the request
    raises, the status is an error status, or the body does not decode. *)
Inductive fails_with (server : backend) (w : world) (r : request)
  : exn -> Prop :=
| transport_failure e :
    server (sent w) r = inl e -> fails_with server w r e
| error_status resp e :
    server (sent w) r = inr resp ->
    raise_for_status resp = inl e -> fails_with server w r e
| undecodable_body resp e :
    server (sent w) r = inr resp ->
    raise_for_status resp = inr tt ->
    decoded resp = inl e -> fails_with server w r e.

(** The error text [api_call] reports for an exception. *)
Definition reported (e : exn) : string :=
  if is_connection_error e
  then "Cannot connect to API server. Is it running on port 8000?"
  else if is_timeout e then "API request timed out"
  else exn_text e.

(** What a supported call comes to: one request, and a value built from
    the way the exchange ends. *)
Definition outcome (server : backend) (w : world) (r : request) : value :=
  match server (sent w) r with
  | inl e => failure (reported e)
  | inr resp =>
      match raise_for_status resp with
      | inl e => failure (reported e)
      | inr _ =>
          match decoded resp with
          | inl e => failure (reported e)
          | inr v => v
          end
      end
  end.

(** The two shapes of a [Result]. *)
Definition success_shape (v : value) : Prop :=
  exists kvs, v = VDict kvs /\ lookup "success" kvs = Some (VBool true).
Definition failure_shape (v : value) : Prop :=
  exists e, v = failure e /\ e <> EmptyString.

(** [w'] differs from [w] by more elements and more requests at most: the
    session is the same. *)
Definition extends (w w' : world) : Prop :=
  session w' = session w /\ exists more, page w' = (page w ++ more)%list.

(** A computation that leaves the session alone and only adds to the page. *)
Definition keeps_session {A} (m : M A) : Prop :=
  forall w, extends w (snd (m w)).

(** A computation that sends nothing. *)
Definition silent {A} (m : M A) : Prop :=
  forall w, sent (snd (m w)) = sent w.

(** A computation that leaves the whole world alone. *)
Definition pure {A} (m : M A) : Prop := forall w, snd (m w) = w.

(** What [display_nlp_chat] shows before it looks at the button. *)
Definition console_head : list element :=
  [Title "💬 NLP Message Processor"; Write chat_examples;
   TextInput "Enter your message:"; Button "Send"].

(** The label of a record in the history view; empty where the loop body
    would raise instead. *)
Definition record_label (float_repr : spec_float -> string)
    (container_repr : value -> string) (msg : value) : string :=
  match subscript msg "message" with
  | inl _ => EmptyString
  | inr text =>
      match first_slice 50 text with
      | inl _ => EmptyString
      | inr head => "📨 " ++ str float_repr container_repr head ++ "..."
      end
  end.

Definition history_expander (float_repr : spec_float -> string)
    (container_repr : value -> string) (msg : value) : element :=
  Expander (record_label float_repr container_repr msg) [WriteValue msg].

(** What the history view shows for a history. *)
Definition history_view (float_repr : spec_float -> string)
    (container_repr : value -> string) (history : list value) : list element :=
  match history with
  | [] => [Info "No messages yet. Send a message to get started!"]
  | _ => map (history_expander float_repr container_repr)
           (last_slice 5 history)
  end.

(** One line on the page for each entry of a dict. *)
Definition entry_lines (float_repr : spec_float -> string)
    (container_repr : value -> string) (kvs : list (string * value))
  : list element :=
  map (fun kv => Write (entry_line float_repr container_repr kv)) kvs.

(** The row [project_row] builds for a dict with status [s], with [shown]
    in the value column. *)
Definition row_of (kvs : list (string * value)) (s shown : string) : value :=
  VDict [("Project", find "name" kvs (VStr "N/A"));
         ("Client", find "client" kvs (VStr "N/A"));
         ("Status", VStr (upper s)); ("Value", VStr shown)].

(** A project as the dashboard endpoints send it. *)
Definition project (name : string) (estimated_value : list (string * value))
  : value :=
  VDict ([("name", VStr name); ("client", VStr "Google");
          ("status", VStr "active")] ++ estimated_value).

(** Its row in the table, with [shown] in the value column. *)
Definition table_row (name shown : string) : value :=
  VDict [("Project", VStr name); ("Client", VStr "Google");
         ("Status", VStr "ACTIVE"); ("Value", VStr shown)].

(** The float 0.92. *)
Definition confidence_92 : spec_float :=
  S754_finite false 8286623314361713 (-53).

(** The reply to "Ramesh is assigned to Google project". *)
Definition assignment_reply : value :=
  VDict [("success", VBool true);
         ("parsed",
          VDict [("intent", VStr "assignment");
                 ("action", VStr "assign_employee");
                 ("confidence", VFloat confidence_92);
                 ("employee", VStr "Ramesh");
                 ("project", VStr "Google");
                 ("pending_payments_count", VInt 3);
                 ("original_message",
                  VStr "Ramesh is assigned to Google project")]);
         ("execution",
          VDict [("success", VBool true); ("action", VStr "assigned");
                 ("data", VDict [("employee", VStr "Ramesh");
                                 ("project", VStr "Google")])])].

(** A record of the history, as the history view reads it. *)
Definition record (text : string) : value := VDict [("message", VStr text)].

(** The session [initialize_session] sets up, with a given history. *)
Definition session_with (history : list value) : session_state :=
  mkSession (Some (VInt 1)) (Some (VStr "manager")) (Some history).

(** [repr] for the examples, which print no float, list or dict. *)
Definition no_float_repr (f : spec_float) : string := "0.0".
Definition no_container_repr (v : value) : string := "[]".

(** Servers used in the examples. *)
Definition replying (status : Z) (body : res value) : backend :=
  fun _ r => ok (mkResponse status "OK" (url r) body).
Definition raising (c : exception_class) (text : string) : backend :=
  fun _ _ => throw c text.
Definition health_reply : value :=
  VDict [("status", VStr "healthy"); ("version", VStr "1.0.0")].

(** ** Vocabulary of the further properties *)

Definition is_dict (v : value) : bool :=
  match v with VDict _ => true | _ => false end.

(** A project whose row cannot be built: not a dict, or a dict whose
    [status] is there and is not text. *)
Definition malformed (p : value) : Prop :=
  is_dict p = false \/
  exists kvs v, p = VDict kvs /\ lookup "status" kvs = Some v /\
                (forall s, v <> VStr s).

(** The text in the Status cell of a row. *)
Definition status_cell (row : value) : option string :=
  match row with
  | VDict kvs =>
      match lookup "Status" kvs with
      | Some (VStr t) => Some t
      | _ => None
      end
  | _ => None
  end.

(** The world a console computation sees when run on a screen. *)
Definition inner (s : screen) : world := mkWorld (state s) [] (requests s).

(** The screen with more widgets. *)
Definition with_widgets (s : screen) (more : list widget) : screen :=
  mkScreen (state s) (widgets s ++ more) (requests s).

(** The screen with one more request sent. *)
Definition with_request (s : screen) (r : request) : screen :=
  mkScreen (state s) (widgets s) (requests s ++ [r]).

(** The screen in another session state. *)
Definition with_state (s : screen) (st : session_state) : screen :=
  mkScreen st (widgets s) (requests s).

(** A page computation that sends nothing. *)
Definition quiet {A} (m : P A) : Prop :=
  forall s, requests (snd (m s)) = requests s.

(** A page computation that leaves the session state alone. *)
Definition stateless {A} (m : P A) : Prop :=
  forall s, state (snd (m s)) = state s.

(** A page computation that only adds widgets. *)
Definition adds_widgets {A} (m : P A) : Prop :=
  forall s, exists more, widgets (snd (m s)) = (widgets s ++ more)%list.

(** The GET that [api_call] sends for an endpoint. *)
Definition get_request (endpoint : string) : request :=
  mkRequest "GET" (API_BASE_URL ++ endpoint) None 10.

(** What [main] does before it picks a page. *)
Definition prelude (server : backend) (float_repr : spec_float -> string)
    (container_repr : value -> string) (choice : nat) (page : nav)
  : P string :=
  and_then (run (initialize_session))
    (fun _ => display_sidebar server float_repr container_repr choice page).

(** The user block of [display_sidebar]: the fetch and the selection. *)
Definition sidebar_users (server : backend)
    (float_repr : spec_float -> string) (container_repr : value -> string)
    (choice : nat) : P unit :=
  and_then (run (get_users server)) (fun users_result =>
  and_then (fail (get users_result "success" VNone)) (fun loaded =>
  if truthy loaded then
    and_then (fail (get users_result "users" (VList []))) (fun users =>
    and_then (fail (iterate users)) (fun us =>
    and_then (fail (user_options_from float_repr container_repr [] us))
      (fun user_options =>
    and_then (place (Selectbox "Select User:" user_options)) (fun _ =>
    let selected_user_id := selectbox (map fst user_options) choice in
    and_then (run read_session) (fun s =>
    and_then (run (write_session
                     (mkSession (Some (value_of_key selected_user_id))
                        (user_role s) (chat_messages s)))) (fun _ =>
    and_then (fail (first_user us selected_user_id)) (fun selected_user =>
    match selected_user with
    | Some u =>
        if truthy u then
          and_then (fail (subscript u "role")) (fun role =>
          and_then (run read_session) (fun s =>
          run (write_session
                 (mkSession (user_id s) (Some role) (chat_messages s)))))
        else done tt
    | None => done tt
    end)))))))
  else run (show (Error "Could not load users")))).

(** The rest of [display_sidebar]: navigation, server status, about. *)
Definition sidebar_rest (server : backend)
    (float_repr : spec_float -> string) (container_repr : value -> string)
    (page : nav) : P string :=
  and_then (place Divider) (fun _ =>
  and_then (run (show (Subheader "📍 Navigation"))) (fun _ =>
  and_then (place (Radio "Select Page:" ["Dashboard"; "NLP Chat"; "About"]))
    (fun _ =>
  and_then (place Divider) (fun _ =>
  and_then (run (display_sidebar_server_status server float_repr
                   container_repr)) (fun _ =>
  and_then (place Divider) (fun _ =>
  and_then (run (show (Subheader "ℹ️ About"))) (fun _ =>
  and_then (run (show (Write sidebar_about))) (fun _ =>
  done (nav_name page))))))))).

(** [st'] has the history of [st], and every field set in [st] is set
    in [st']. *)
Definition refines (st st' : session_state) : Prop :=
  chat_messages st' = chat_messages st /\
  (user_id st <> None -> user_id st' <> None) /\
  (user_role st <> None -> user_role st' <> None).

(** A page computation that unsets nothing and keeps the history. *)
Definition grows {A} (m : P A) : Prop :=
  forall s, refines (state s) (state (snd (m s))).

(** The role the user block stores for a selection. *)
Definition role_after (old : option value) (users : list value)
    (selected : key) : option value :=
  match first_user users selected with
  | inr (Some u) =>
      match subscript u "role" with
      | inr role => if truthy u then Some role else old
      | inl _ => old
      end
  | _ => old
  end.

(** Every field of the session is set. *)
Definition all_set (st : session_state) : Prop :=
  (exists u, user_id st = Some u) /\ (exists r, user_role st = Some r) /\
  (exists h, chat_messages st = Some h).

(** The server cannot be reached: every request raises a connection
    error. *)
Definition unreachable (server : backend) : Prop :=
  forall history r, exists e,
    server history r = inl e /\ is_connection_error e = true.

(** The sidebar down to the navigation, when the users were not loaded. *)
Definition sidebar_without_users : list widget :=
  [Basic (Title "⚙️ Settings"); Basic (Subheader "👤 User Profile");
   Basic (Error "Could not load users"); Divider;
   Basic (Subheader "📍 Navigation");
   Radio "Select Page:" ["Dashboard"; "NLP Chat"; "About"]; Divider;
   Basic (Subheader "🔗 Server Status")].

(** The end of the sidebar. *)
Definition sidebar_foot : list widget :=
  [Divider; Basic (Subheader "ℹ️ About"); Basic (Write sidebar_about)].

(** A user as [/api/users] sends it. *)
Definition user (id : Z) (name role : string) : value :=
  VDict [("id", VInt id); ("name", VStr name); ("role", VStr role)].

(** A server that answers each URL with its own reply, and 404 elsewhere. *)
Fixpoint routing (routes : list (string * value)) : backend :=
  fun history r =>
    match routes with
    | [] => ok (mkResponse 404 "Not Found" (url r)
                  (throw JSONDecodeError "Expecting value"))
    | (path, reply) :: rest =>
        if (url r =? API_BASE_URL ++ path)%string
        then ok (mkResponse 200 "OK" (url r) (ok reply))
        else routing rest history r
    end.

Definition users_reply (users : list value) : value :=
  VDict [("success", VBool true); ("users", VList users)].

(** The four metrics when no statistic is there. *)
Definition zero_metrics : list widget :=
  [Metric "Total Projects" "0"; Metric "Active Projects" "0";
   Metric "Total Revenue" "₹0"; Metric "Pending Payments" "0"].

(** The two summaries of the manager dashboard when no statistic is
    there. *)
Definition zero_summaries : list widget :=
  [Basic (Subheader "💰 Revenue Summary");
   Basic (Write (nl ++ "        - **Total Revenue**: ₹0" ++
                 nl ++ "        - **Active Projects**: 0" ++
                 nl ++ "        - **Total Projects**: 0" ++
                 nl ++ "        "));
   Basic (Subheader "⚠️ Pending Items");
   Basic (Write (nl ++ "        - **Pending Payments**: 0" ++
                 nl ++ "        "))].

(** The screen of a session that [initialize_session] has set up. *)
Definition ready_screen : screen := mkScreen (session_with []) [] [].

(** A server that refuses every connection. *)
Definition refusing : backend := raising ConnectionError "Connection refused".

(** Two users, and a server that knows them and answers the health call. *)
Definition team : list value :=
  [user 1 "Asha" "manager"; user 2 "Ravi" "executive"].
Definition team_server : backend :=
  routing [("/api/users", users_reply team); ("/health", health_reply)].

(** ** Vocabulary of the labels and of the history over several runs *)

(** Text of ASCII characters only.  On such text [upper] and [title] are
    [str.upper] and [str.title]. *)
Definition ascii_only (s : string) : bool :=
  forallb (fun c => (nat_of_ascii c <? 128)%nat) (list_ascii_of_string s).

(** A value that is ASCII text where it is text. *)
Definition ascii_text (v : value) : bool :=
  match v with
  | VStr s => ascii_only s
  | _ => true
  end.


(** What the user does before one run of the script: the option chosen in
    the selectbox, the page chosen in the radio, the text in the console's
    input and whether Send was pressed. *)
Record interaction : Type := mkInteraction {
  chosen_user : nat;
  chosen_page : nav;
  typed : string;
  pressed : bool
}.

(** The screen a run of the script starts with: the page is empty, the
    session state is the one the run before left, and so is the record of
    the requests sent. *)
Definition next_screen (s : screen) : screen :=
  mkScreen (state s) [] (requests s).

(** One run of [main] for each interaction, in order.  A run that raises
    ends there; what it stored in the session before stays. *)
Fixpoint script_runs (server : backend) (float_repr : spec_float -> string)
    (container_repr : value -> string) (l : list interaction) (s : screen)
  : screen :=
  match l with
  | [] => s
  | i :: rest =>
      script_runs server float_repr container_repr rest
        (snd (main server float_repr container_repr (chosen_user i)
                (chosen_page i) (typed i) (pressed i) (next_screen s)))
  end.

(** The run of [main] on the NLP Chat page that comes after the runs of
    [l]. *)
Definition console_after (server : backend)
    (float_repr : spec_float -> string) (container_repr : value -> string)
    (l : list interaction) (choice : nat) (message : string)
    (send_button : bool) (s : screen) : res unit * screen :=
  main server float_repr container_repr choice NLPChat message send_button
    (next_screen (script_runs server float_repr container_repr l s)).

(** A message typed in the console, Send pressed. *)
Definition submission (text : string) : interaction :=
  mkInteraction 0 NLPChat text true.

(** The POST of a message by user 1. *)
Definition posted (text : string) : request :=
  mkRequest "POST" "http://localhost:8000/api/mcp/message"
    (Some (VDict [("message", VStr text); ("user_id", VInt 1)])) 10.

(** The requests of a record that are POSTs. *)
Definition posts (l : list request) : list request :=
  filter (fun r => (verb r =? "POST")%string) l.

(** A server that knows the team, answers the health call and accepts
    every message. *)
Definition sales_server : backend :=
  routing [("/api/users", users_reply team); ("/health", health_reply);
           ("/api/mcp/message", assignment_reply)].

(** ** The transport helper *)

Section Transport.
Variable server : backend.

Lemma api_call_supported (endpoint method : string) (data : option value)
    (w : world) :
  method = "GET" \/ method = "POST" ->
  api_call server endpoint method data w =
  (ok (outcome server w (request_for endpoint method data)),
   with_sent w (request_for endpoint method data)).
Proof.
  intros [-> | ->];
    unfold api_call, try_except, bind, requests_get, requests_post, send,
      lift, outcome, reported;
    cbn [String.eqb Ascii.eqb Bool.eqb request_for]; cbv zeta.
  all: destruct (server (sent w) _) as [e | resp]; cbn;
    [ destruct (is_connection_error e), (is_timeout e); reflexivity | ].
  all: destruct (raise_for_status resp) as [e | []]; cbn;
    [ destruct (is_connection_error e), (is_timeout e); reflexivity | ].
  all: destruct (decoded resp) as [e | v]; cbn; [ | reflexivity ].
  all: destruct (is_connection_error e), (is_timeout e); reflexivity.
Qed.

Lemma api_call_unsupported (endpoint method : string) (data : option value)
    (w : world) :
  method <> "GET" -> method <> "POST" ->
  api_call server endpoint method data w =
  (ok (failure ("Unknown method: " ++ method)), w).
Proof.
  intros Hget Hpost.
  apply String.eqb_neq in Hget, Hpost.
  unfold api_call, try_except, bind.
  rewrite Hget, Hpost. reflexivity.
Qed.

Lemma outcome_of_failure (w : world) (r : request) (e : exn) :
  fails_with server w r e -> outcome server w r = failure (reported e).
Proof.
  unfold outcome.
  intros [e' H | resp e' H1 H2 | resp e' H1 H2 H3].
  - now rewrite H.
  - now rewrite H1, H2.
  - now rewrite H1, H2, H3.
Qed.

Lemma reported_nonempty (e : exn) :
  exn_text e <> EmptyString -> reported e <> EmptyString.
Proof.
  unfold reported.
  destruct (is_connection_error e); [ discriminate | ].
  destruct (is_timeout e); [ discriminate | trivial ].
Qed.

Lemma http_error_text_nonempty (resp : response) (e : exn) :
  raise_for_status resp = inl e -> exn_text e <> EmptyString.
Proof.
  unfold raise_for_status, throw.
  destruct (_ && _).
  - intros [= <-]. cbn. destruct (decimal (status_code resp)); discriminate.
  - destruct (_ && _); [ | discriminate ].
    intros [= <-]. cbn. destruct (decimal (status_code resp)); discriminate.
Qed.

(** C1, as amended.  Every call returns a value and raises nothing.  A
    GET or POST whose exchange ends in an exception [e] (the request
    raises, the status is in 400..599, or the body does not decode)
    returns [{success: False, error: reported e}]: a fixed text for a
    connection error, a fixed text for a timeout, [str(e)] otherwise; that
    text is non-empty whenever [str(e)] is, and always for an error
    status.  A GET or POST answered with another status and a body that
    decodes returns the decoded body as it is. *)
Theorem api_call_always_returns
    (endpoint method : string) (data : option value) (w : world) :
  (exists v, fst (api_call server endpoint method data w) = ok v) /\
  (method = "GET" \/ method = "POST" ->
   let r := request_for endpoint method data in
   (forall e, fails_with server w r e ->
      fst (api_call server endpoint method data w)
        = ok (failure (reported e)) /\
      (exn_text e <> EmptyString -> reported e <> EmptyString)) /\
   (forall resp e, server (sent w) r = inr resp ->
      raise_for_status resp = inl e -> reported e <> EmptyString) /\
   (forall resp v, server (sent w) r = inr resp ->
      raise_for_status resp = inr tt -> decoded resp = inr v ->
      fst (api_call server endpoint method data w) = ok v)).
Proof.
  split.
  - destruct (string_dec method "GET") as [Hg | Hg];
      [ | destruct (string_dec method "POST") as [Hp | Hp] ].
    + rewrite api_call_supported by auto. cbn [fst]. eauto.
    + rewrite api_call_supported by auto. cbn [fst]. eauto.
    + rewrite api_call_unsupported by auto. cbn [fst]. eauto.
  - intros Hm r. rewrite api_call_supported by exact Hm. cbn [fst].
    split; [ | split ].
    + intros e He. split.
      * f_equal. now apply outcome_of_failure.
      * apply reported_nonempty.
    + intros resp e _ He.
      apply reported_nonempty, (http_error_text_nonempty resp e He).
    + intros resp v H1 H2 H3. unfold outcome. fold r.
      now rewrite H1, H2, H3.
Qed.

(** C3, as amended.  When the request of a GET or POST raises, a
    connection error (a connect timeout is one) is reported with the text
    about port 8000, and a timeout that is not a connection error with
    "API request timed out". *)
Theorem api_call_connection_and_timeout_texts
    (endpoint method : string) (data : option value) (w : world) (e : exn) :
  method = "GET" \/ method = "POST" ->
  server (sent w) (request_for endpoint method data) = inl e ->
  (is_connection_error e = true ->
   fst (api_call server endpoint method data w)
   = ok (failure "Cannot connect to API server. Is it running on port 8000?"))
  /\
  (is_connection_error e = false -> is_timeout e = true ->
   fst (api_call server endpoint method data w)
   = ok (failure "API request timed out")).
Proof.
  intros Hm He. rewrite api_call_supported by exact Hm. cbn [fst].
  unfold outcome, reported. rewrite He.
  split.
  - now intros ->.
  - now intros -> ->.
Qed.

(** C9.  A method other than GET and POST gets the unknown-method failure
    and leaves the world as it was: nothing is sent. *)
Theorem api_call_unknown_method
    (endpoint method : string) (data : option value) (w : world) :
  method <> "GET" -> method <> "POST" ->
  api_call server endpoint method data w
    = (ok (failure ("Unknown method: " ++ method)), w) /\
  sent (snd (api_call server endpoint method data w)) = sent w.
Proof.
  intros Hg Hp. rewrite api_call_unsupported by assumption. now split.
Qed.

End Transport.

Lemma api_call_refused_witness :
  fst (api_call (raising ConnectionError "connection refused")
         "/health" "GET" None fresh_world)
  = ok (failure "Cannot connect to API server. Is it running on port 8000?").
Proof.
  destruct (api_call_always_returns
              (raising ConnectionError "connection refused")
              "/health" "GET" None fresh_world) as [_ H].
  destruct (H (or_introl eq_refl)) as [Hfail _].
  exact (proj1 (Hfail _ (transport_failure _ _ _ _ eq_refl))).
Defined.

(** C1 as stated fails: the health reply comes back as it is, and it is
    neither [{success: true, ...}] nor [{success: false, error: e}]. *)
Lemma api_call_health_reply_has_neither_shape :
  fst (api_call (replying 200 (ok health_reply)) "/health" "GET" None
         fresh_world) = ok health_reply /\
  ~ success_shape health_reply /\
  ~ failure_shape health_reply.
Proof.
  split; [ reflexivity | split ].
  - intros (kvs & Hv & Hs). injection Hv as <-. discriminate Hs.
  - intros (e & Hv & _). discriminate Hv.
Qed.

(** Two more replies outside the claim as stated: a status that is not
    2xx and not an error status passes its body on, and an exception
    whose text is empty is reported with an empty error. *)
Example api_call_not_modified_passes_body :
  fst (api_call (replying 304 (ok (VList []))) "/api/users" "GET" None
         fresh_world) = ok (VList []).
Proof. reflexivity. Qed.

Example api_call_empty_exception_text :
  fst (api_call (raising OtherException EmptyString) "/api/users" "GET" None
         fresh_world) = ok (failure EmptyString).
Proof. reflexivity. Qed.

Lemma api_call_read_timeout_witness :
  fst (api_call (raising ReadTimeout "Read timed out. (read timeout=10)")
         "/api/users" "GET" None fresh_world)
  = ok (failure "API request timed out").
Proof.
  refine (proj2 (api_call_connection_and_timeout_texts
                   (raising ReadTimeout "Read timed out. (read timeout=10)")
                   "/api/users" "GET" None fresh_world _
                   (or_introl eq_refl) eq_refl) eq_refl eq_refl).
Defined.

(** C3 as stated fails: the texts returned for a timeout and for a
    refused connection are not the ones the claim gives. *)
Lemma api_call_texts_are_not_the_short_ones :
  fst (api_call (raising ReadTimeout "Read timed out. (read timeout=10)")
         "/api/users" "GET" None fresh_world)
    = ok (failure "API request timed out") /\
  failure "API request timed out" <> failure "timeout" /\
  fst (api_call (raising ConnectionError "Connection refused")
         "/api/users" "GET" None fresh_world)
    = ok (failure "Cannot connect to API server. Is it running on port 8000?") /\
  failure "Cannot connect to API server. Is it running on port 8000?"
    <> failure "connection unavailable".
Proof.
  split; [ reflexivity | split; [ discriminate | ] ].
  split; [ reflexivity | discriminate ].
Qed.

Lemma api_call_put_witness :
  api_call (replying 200 (ok health_reply)) "/health" "PUT" None fresh_world
    = (ok (failure "Unknown method: PUT"), fresh_world).
Proof.
  refine (proj1 (api_call_unknown_method (replying 200 (ok health_reply))
                   "/health" "PUT" None fresh_world _ _)); discriminate.
Defined.

(** ** How computations treat the world *)

Lemma extends_refl (w : world) : extends w w.
Proof. split; [ reflexivity | exists []; now rewrite app_nil_r ]. Qed.

Lemma extends_trans (w1 w2 w3 : world) :
  extends w1 w2 -> extends w2 w3 -> extends w1 w3.
Proof.
  intros [Hs1 [m1 Hp1]] [Hs2 [m2 Hp2]]. split.
  - congruence.
  - exists (m1 ++ m2)%list. now rewrite Hp2, Hp1, app_assoc.
Qed.

Lemma keeps_ret {A} (a : A) : keeps_session (ret a).
Proof. intro w. apply extends_refl. Qed.

Lemma keeps_lift {A} (r : res A) : keeps_session (lift r).
Proof. intro w. apply extends_refl. Qed.

Lemma keeps_show (e : element) : keeps_session (show e).
Proof. intro w. split; [ reflexivity | now exists [e] ]. Qed.

Lemma keeps_read_session : keeps_session read_session.
Proof. intro w. apply extends_refl. Qed.

Lemma keeps_attribute {A} (name : string) (field : option A) :
  keeps_session (attribute name field).
Proof. destruct field; [ apply keeps_ret | apply keeps_lift ]. Qed.

Lemma keeps_bind {A B} (m : M A) (k : A -> M B) :
  keeps_session m -> (forall a, keeps_session (k a)) ->
  keeps_session (bind m k).
Proof.
  intros Hm Hk w. unfold bind.
  specialize (Hm w). destruct (m w) as [[e | a] w1]; cbn in *.
  - exact Hm.
  - exact (extends_trans _ _ _ Hm (Hk a w1)).
Qed.

Lemma keeps_try_except {A} (body : M A) (handler : exn -> M A) :
  keeps_session body -> (forall e, keeps_session (handler e)) ->
  keeps_session (try_except body handler).
Proof.
  intros Hb Hh w. unfold try_except.
  specialize (Hb w). destruct (body w) as [[e | a] w1]; cbn in *.
  - exact (extends_trans _ _ _ Hb (Hh e w1)).
  - exact Hb.
Qed.

Lemma keeps_for_each {A} (l : list A) (body : A -> M unit) :
  (forall a, keeps_session (body a)) -> keeps_session (for_each l body).
Proof.
  intro Hb. induction l as [ | x r IH]; cbn.
  - apply keeps_ret.
  - apply keeps_bind; [ apply Hb | intros _; exact IH ].
Qed.

Lemma keeps_send (server : backend) (r : request) :
  keeps_session (send server r).
Proof.
  intro w. split; [ reflexivity | exists []; cbn; now rewrite app_nil_r ].
Qed.

Lemma pure_ret {A} (a : A) : pure (ret a).
Proof. now intro w. Qed.

Lemma pure_lift {A} (r : res A) : pure (lift r).
Proof. now intro w. Qed.

Lemma pure_bind {A B} (m : M A) (k : A -> M B) :
  pure m -> (forall a, pure (k a)) -> pure (bind m k).
Proof.
  intros Hm Hk w. unfold bind.
  specialize (Hm w). destruct (m w) as [[e | a] w1]; cbn in *.
  - exact Hm.
  - subst w1. apply Hk.
Qed.

Lemma pure_comprehension {A B} (l : list A) (f : A -> M B) :
  (forall a, pure (f a)) -> pure (comprehension l f).
Proof.
  intro Hf. induction l as [ | x r IH]; cbn.
  - apply pure_ret.
  - apply pure_bind; [ apply Hf | intro y ].
    apply pure_bind; [ exact IH | intro ys; apply pure_ret ].
Qed.

(** A comprehension that returns gives one result per element. *)
Lemma comprehension_length {A B} (l : list A) (f : A -> M B) (w w' : world)
    (ys : list B) :
  comprehension l f w = (ok ys, w') -> List.length ys = List.length l.
Proof.
  revert w w' ys. induction l as [ | x r IH]; cbn; intros w w' ys.
  - unfold ret. now intros [= <- _].
  - unfold bind at 1. destruct (f x w) as [[e | y] w1]; [ discriminate | ].
    unfold bind. destruct (comprehension r f w1) as [[e | ys'] w2] eqn:E;
      [ discriminate | ].
    unfold ret. intros [= <- _]. cbn. f_equal. exact (IH _ _ _ E).
Qed.

Lemma pure_silent {A} (m : M A) : pure m -> silent m.
Proof. intros H w. now rewrite H. Qed.

Lemma silent_show (e : element) : silent (show e).
Proof. now intro w. Qed.

Lemma silent_read_session : silent read_session.
Proof. now intro w. Qed.

Lemma silent_attribute {A} (name : string) (field : option A) :
  silent (attribute name field).
Proof. now destruct field. Qed.

Lemma silent_bind {A B} (m : M A) (k : A -> M B) :
  silent m -> (forall a, silent (k a)) -> silent (bind m k).
Proof.
  intros Hm Hk w. unfold bind.
  specialize (Hm w). destruct (m w) as [[e | a] w1]; cbn in *.
  - exact Hm.
  - now rewrite Hk.
Qed.

Lemma silent_for_each {A} (l : list A) (body : A -> M unit) :
  (forall a, silent (body a)) -> silent (for_each l body).
Proof.
  intro Hb. induction l as [ | x r IH]; cbn.
  - now intro w.
  - apply silent_bind; [ apply Hb | intros _; exact IH ].
Qed.

Lemma silent_ret {A} (a : A) : silent (ret a).
Proof. now intro w. Qed.

Lemma silent_lift {A} (r : res A) : silent (lift r).
Proof. now intro w. Qed.

Create HintDb frame.
#[local] Hint Resolve silent_ret silent_lift silent_show silent_read_session
  silent_attribute : frame.
#[local] Hint Resolve keeps_ret keeps_lift keeps_show keeps_read_session
  keeps_attribute keeps_send pure_ret pure_lift : frame.

(** Walks a computation along its binds and branches. *)
Ltac frame :=
  repeat (intros;
    match goal with
    | |- keeps_session (bind _ _) => apply keeps_bind
    | |- keeps_session (try_except _ _) => apply keeps_try_except
    | |- keeps_session (for_each _ _) => apply keeps_for_each
    | |- silent (bind _ _) => apply silent_bind
    | |- silent (for_each _ _) => apply silent_for_each
    | |- pure (bind _ _) => apply pure_bind
    | |- pure (comprehension _ _) => apply pure_comprehension
    | |- _ (if ?b then _ else _) => destruct b
    | |- _ (match ?x with _ => _ end) => destruct x
    | |- _ => solve [ auto with frame ]
    end).

Lemma keeps_api_call (server : backend) (endpoint method : string)
    (data : option value) :
  keeps_session (api_call server endpoint method data).
Proof. unfold api_call, requests_get, requests_post. frame. Qed.

Lemma pure_project_row (p : value) : pure (project_row p).
Proof. unfold project_row. frame. Qed.

(** ** The projects table *)

Lemma display_projects_table_nonempty (p : value) (ps : list value)
    (w : world) :
  (exists e, display_projects_table (VList (p :: ps)) w = (inl e, w)) \/
  (exists rows, display_projects_table (VList (p :: ps)) w
                  = (ok tt, with_page w [Dataframe rows]) /\
                List.length rows = List.length (p :: ps)).
Proof.
  unfold display_projects_table. cbn [truthy negb iterate].
  unfold bind, lift, ok. cbv beta iota.
  pose proof (pure_comprehension (p :: ps) project_row pure_project_row w)
    as Hw.
  destruct (comprehension (p :: ps) project_row w) as [[e | rows] w1] eqn:E;
    cbn in Hw; subst w1.
  - left. now exists e.
  - right. exists rows. split; [ reflexivity | ].
    exact (comprehension_length _ _ _ _ _ E).
Qed.

(** C8.  An empty projects list shows the empty-state message and nothing
    else.  A table that is on the page after the call and was not there
    before comes from a list that is not empty, and has one row for each
    of its projects. *)
Theorem display_projects_table_empty_state (l : list value) (w : world) :
  (l = [] ->
   display_projects_table (VList l) w
     = (ok tt, with_page w [Info "No projects found"])) /\
  (forall rows,
     In (Dataframe rows) (page (snd (display_projects_table (VList l) w))) ->
     In (Dataframe rows) (page w) \/
     (l <> [] /\ List.length rows = List.length l)).
Proof.
  split.
  - intros ->. reflexivity.
  - intros rows Hin. destruct l as [ | p ps].
    + cbn in Hin. apply in_app_or in Hin as [Hin | [Hin | []]].
      * now left.
      * discriminate Hin.
    + destruct (display_projects_table_nonempty p ps w)
        as [[e He] | (rows' & Hrun & Hlen)].
      * rewrite He in Hin. now left.
      * rewrite Hrun in Hin. cbn in Hin.
        apply in_app_or in Hin as [Hin | [Hin | []]]; [ now left | ].
        injection Hin as <-. right. split; [ discriminate | exact Hlen ].
Qed.

Lemma display_projects_table_witness :
  display_projects_table (VList []) fresh_world
    = (ok tt, with_page fresh_world [Info "No projects found"]) /\
  ([project "Search" [("estimated_value", VInt 120000)]] <> [] /\
   List.length [table_row "Search" "₹120,000"] = 1%nat).
Proof.
  split.
  - exact (proj1 (display_projects_table_empty_state [] fresh_world) eq_refl).
  - destruct (proj2 (display_projects_table_empty_state
                       [project "Search" [("estimated_value", VInt 120000)]]
                       fresh_world)
                [table_row "Search" "₹120,000"] (or_introl eq_refl))
      as [[] | H].
    exact H.
Defined.

(** A row whose [estimated_value] is false in Python's sense (absent,
    [None], [0], [0.0], ...) shows N/A in the value column. *)
Lemma project_row_falsy_value (kvs : list (string * value)) (s : string)
    (w : world) :
  find "status" kvs (VStr "N/A") = VStr s ->
  truthy (find "estimated_value" kvs VNone) = false ->
  project_row (VDict kvs) w = (ok (row_of kvs s "N/A"), w).
Proof.
  intros Hs Hv. unfold project_row, bind, lift, get, ok.
  cbv beta iota. rewrite Hs. cbv beta iota. rewrite Hv. reflexivity.
Qed.

(** C4, on the code.  In the row of a project (one whose status is a
    string), the value 120000 is shown as ₹120,000 and an absent or
    [None] value as N/A; the value 0 is shown as N/A too, not as an
    amount. *)
Theorem project_row_value_column (kvs : list (string * value)) (s : string)
    (w : world) :
  find "status" kvs (VStr "N/A") = VStr s ->
  (lookup "estimated_value" kvs = Some (VInt 120000) ->
   project_row (VDict kvs) w = (ok (row_of kvs s "₹120,000"), w)) /\
  (lookup "estimated_value" kvs = None ->
   project_row (VDict kvs) w = (ok (row_of kvs s "N/A"), w)) /\
  (lookup "estimated_value" kvs = Some VNone ->
   project_row (VDict kvs) w = (ok (row_of kvs s "N/A"), w)) /\
  (lookup "estimated_value" kvs = Some (VInt 0) ->
   project_row (VDict kvs) w = (ok (row_of kvs s "N/A"), w)).
Proof.
  intro Hs. split; [ | split; [ | split ] ].
  - intro Hv.
    assert (Hnone : find "estimated_value" kvs VNone = VInt 120000)
      by (unfold find; now rewrite Hv).
    assert (Hzero : find "estimated_value" kvs (VInt 0) = VInt 120000)
      by (unfold find; now rewrite Hv).
    unfold project_row, bind, lift, get, ok.
    cbv beta iota. rewrite Hs. cbv beta iota.
    rewrite Hnone, Hzero. reflexivity.
  - intro Hv. apply project_row_falsy_value; [ exact Hs | ].
    unfold find. now rewrite Hv.
  - intro Hv. apply project_row_falsy_value; [ exact Hs | ].
    unfold find. now rewrite Hv.
  - intro Hv. apply project_row_falsy_value; [ exact Hs | ].
    unfold find. now rewrite Hv.
Qed.

Lemma project_row_zero_witness :
  project_row (project "Drive" [("estimated_value", VInt 0)]) fresh_world
  = (ok (table_row "Drive" "N/A"), fresh_world).
Proof.
  exact (proj2 (proj2 (proj2
           (project_row_value_column
              [("name", VStr "Drive"); ("client", VStr "Google");
               ("status", VStr "active"); ("estimated_value", VInt 0)]
              "active" fresh_world eq_refl))) eq_refl).
Defined.

(** The table of four projects: an amount, [None], no value, zero. *)
Example display_projects_table_value_column :
  display_projects_table
    (VList [project "Search" [("estimated_value", VInt 120000)];
            project "Maps" [("estimated_value", VNone)];
            project "Mail" [];
            project "Drive" [("estimated_value", VInt 0)]])
    fresh_world
  = (ok tt,
     with_page fresh_world
       [Dataframe [table_row "Search" "₹120,000";
                   table_row "Maps" "N/A";
                   table_row "Mail" "N/A";
                   table_row "Drive" "N/A"]]).
Proof. reflexivity. Qed.

(** The same holds for the float zero, and a float amount is grouped as
    an int is. *)
Example display_projects_table_float_values :
  display_projects_table
    (VList [project "Search" [("estimated_value", VFloat (binary64 120000 0))];
            project "Drive" [("estimated_value", VFloat (S754_zero false))]])
    fresh_world
  = (ok tt,
     with_page fresh_world
       [Dataframe [table_row "Search" "₹120,000";
                   table_row "Drive" "N/A"]]).
Proof. reflexivity. Qed.

(** ** Stepping through a run *)

Lemma with_page_nil (w : world) : with_page w [] = w.
Proof. destruct w. unfold with_page. cbn. now rewrite app_nil_r. Qed.

Lemma with_page_app (w : world) (a b : list element) :
  with_page (with_page w a) b = with_page w (a ++ b).
Proof. unfold with_page. cbn. now rewrite app_assoc. Qed.

Lemma bind_show {B} (e : element) (k : unit -> M B) (w : world) :
  bind (show e) k w = k tt (with_page w [e]).
Proof. reflexivity. Qed.

Lemma bind_ret {A B} (a : A) (k : A -> M B) (w : world) :
  bind (ret a) k w = k a w.
Proof. reflexivity. Qed.

Lemma bind_lift_ok {A B} (a : A) (k : A -> M B) (w : world) :
  bind (lift (ok a)) k w = k a w.
Proof. reflexivity. Qed.

Lemma bind_lift_raised {A B} (e : exn) (k : A -> M B) (w : world) :
  bind (lift (inl e)) k w = (inl e, w).
Proof. reflexivity. Qed.

Lemma bind_read_session {B} (k : session_state -> M B) (w : world) :
  bind read_session k w = k (session w) w.
Proof. reflexivity. Qed.

Lemma bind_bind {A B C} (m : M A) (k1 : A -> M B) (k2 : B -> M C)
    (w : world) :
  bind (bind m k1) k2 w = bind m (fun a => bind (k1 a) k2) w.
Proof. unfold bind. now destruct (m w) as [[e | a] w1]. Qed.

Lemma bind_returned {A B} (m : M A) (k : A -> M B) (w w1 : world) (a : A) :
  m w = (ok a, w1) -> bind m k w = k a w1.
Proof. unfold bind. now intros ->. Qed.

Lemma bind_ok_inv {A B} (m : M A) (k : A -> M B) (w w' : world) (b : B) :
  bind m k w = (ok b, w') ->
  exists a w1, m w = (ok a, w1) /\ k a w1 = (ok b, w').
Proof.
  unfold bind. destruct (m w) as [[e | a] w1]; [ discriminate | ].
  intro H. now exists a, w1.
Qed.

Lemma for_each_show {A} (f : A -> element) (l : list A) (w : world) :
  for_each l (fun x => show (f x)) w = (ok tt, with_page w (map f l)).
Proof.
  revert w. induction l as [ | x r IH]; intro w; cbn [for_each map].
  - now rewrite with_page_nil.
  - rewrite bind_show, IH, with_page_app. reflexivity.
Qed.

(** Steps a run forward over the binds whose left side is known. *)
Ltac step :=
  repeat first
    [ rewrite bind_bind | rewrite bind_show | rewrite bind_ret
    | rewrite bind_lift_ok | rewrite bind_read_session
    | rewrite with_page_app ].

(** ** The sidebar's server status *)

Section Sidebar.
Variable server : backend.
Variable float_repr : spec_float -> string.
Variable container_repr : value -> string.

(** C10.  When the health call returns a dict, the sidebar shows the
    connected state exactly when the dict has a true [success] or has the
    key [status], and the disconnected state otherwise. *)
Theorem sidebar_connected_iff
    (w w1 : world) (health : list (string * value)) :
  api_call server "/health" "GET" None
    (with_page w [Subheader "🔗 Server Status"]) = (ok (VDict health), w1) ->
  display_sidebar_server_status server float_repr container_repr w
  = (ok tt,
     with_page w1
       [if truthy (find "success" health VNone)
           || match lookup "status" health with
              | Some _ => true
              | None => false
              end
        then Success ("✅ Connected (v"
                      ++ str float_repr container_repr
                           (find "version" health (VStr "unknown"))
                      ++ ")")
        else Error "❌ Cannot connect to API server"]).
Proof.
  intro Hcall. unfold display_sidebar_server_status.
  rewrite bind_show, (bind_returned _ _ _ _ _ Hcall).
  cbn [get contains]. rewrite bind_lift_ok.
  destruct (truthy (find "success" health VNone)); cbn [orb].
  - rewrite bind_ret. cbv iota. now rewrite bind_lift_ok.
  - rewrite bind_lift_ok.
    destruct (lookup "status" health); cbv iota.
    + now rewrite bind_lift_ok.
    + reflexivity.
Qed.

End Sidebar.

Lemma sidebar_connected_witness :
  display_sidebar_server_status (replying 200 (ok health_reply))
    no_float_repr no_container_repr fresh_world
  = (ok tt,
     mkWorld fresh_session
       [Subheader "🔗 Server Status"; Success "✅ Connected (v1.0.0)"]
       [mkRequest "GET" "http://localhost:8000/health" None 10]).
Proof.
  exact (sidebar_connected_iff (replying 200 (ok health_reply))
           no_float_repr no_container_repr fresh_world _ _ eq_refl).
Defined.

(** The disconnected state: the server cannot be reached. *)
Example sidebar_disconnected :
  page (snd (display_sidebar_server_status
               (raising ConnectionError "Connection refused")
               no_float_repr no_container_repr fresh_world))
  = [Subheader "🔗 Server Status"; Error "❌ Cannot connect to API server"].
Proof. reflexivity. Qed.

(** ** The command console *)

Section Console.
Variable server : backend.
Variable float_repr : spec_float -> string.
Variable container_repr : value -> string.

#[local] Abbreviation chat :=
  (display_nlp_chat server float_repr container_repr).
#[local] Abbreviation text_of := (str float_repr container_repr).

#[local] Hint Resolve keeps_api_call : frame.

Lemma keeps_display_nlp_chat (message : string) (send_button : bool) :
  keeps_session (chat message send_button).
Proof. unfold display_nlp_chat, process_nlp_message. frame. Qed.

Lemma display_nlp_chat_session (message : string) (send_button : bool)
    (w : world) :
  session (snd (chat message send_button w)) = session w.
Proof. exact (proj1 (keeps_display_nlp_chat message send_button w)). Qed.

(** One run of the console sends at most one request: the POST of the
    message, when the button was pressed on a message that is not empty. *)
Lemma display_nlp_chat_requests (message : string) (send_button : bool)
    (w : world) :
  sent (snd (chat message send_button w))
  = (sent w
     ++ if send_button && negb (message =? EmptyString)%string
        then match user_id (session w) with
             | Some uid =>
                 [request_for "/api/mcp/message" "POST"
                    (Some (VDict [("message", VStr message);
                                  ("user_id", uid)]))]
             | None => []
             end
        else [])%list.
Proof.
  unfold display_nlp_chat.
  destruct (send_button && negb (message =? EmptyString)%string).
  - step. cbn [session with_page].
    destruct (user_id (session w)) as [uid | ]; cbn [attribute].
    + step. unfold process_nlp_message.
      rewrite (bind_returned _ _ _ _ _
                 (api_call_supported server _ "POST" _ _ (or_intror eq_refl))).
      match goal with
      | |- sent (snd (?m ?w0)) = _ =>
          assert (K : silent m) by frame; rewrite (K w0)
      end.
      reflexivity.
    + unfold throw. rewrite bind_lift_raised. cbn. now rewrite app_nil_r.
  - step.
    match goal with
    | |- sent (snd (?m ?w0)) = _ =>
        assert (K : silent m) by frame; rewrite (K w0)
    end.
    cbn. now rewrite app_nil_r.
Qed.

(** C2, on the code.  A submission (the button pressed on a message that
    is not empty) sends its POST, and the history after the run is the
    history before it: no record is appended, whatever the server
    answers. *)
Theorem display_nlp_chat_never_appends
    (message : string) (uid : value) (history : list value) (w : world) :
  message <> EmptyString ->
  user_id (session w) = Some uid ->
  chat_messages (session w) = Some history ->
  sent (snd (chat message true w))
  = (sent w
     ++ [mkRequest "POST" "http://localhost:8000/api/mcp/message"
           (Some (VDict [("message", VStr message); ("user_id", uid)]))
           10])%list /\
  chat_messages (session (snd (chat message true w))) = Some history.
Proof.
  intros Hmsg Huid Hhist. split.
  - rewrite display_nlp_chat_requests, Huid.
    apply String.eqb_neq in Hmsg. rewrite Hmsg. reflexivity.
  - rewrite display_nlp_chat_session. exact Hhist.
Qed.

(** The loop of the history view, when it returns. *)
Lemma history_loop (l : list value) (w w' : world) :
  for_each l (fun msg =>
    text <- lift (subscript msg "message") ;;
    head <- lift (first_slice 50 text) ;;
    show (Expander ("📨 " ++ text_of head ++ "...") [WriteValue msg])) w
  = (ok tt, w') ->
  w' = with_page w (map (history_expander float_repr container_repr) l).
Proof.
  revert w. induction l as [ | msg r IH]; intro w; cbn [for_each map].
  - unfold ret. intros [= <-]. now rewrite with_page_nil.
  - intro H. apply bind_ok_inv in H as ([] & w1 & Hbody & Hrest).
    apply IH in Hrest.
    assert (Hw1 : w1 = with_page w [history_expander float_repr container_repr msg]).
    { unfold history_expander, record_label.
      unfold bind, lift in Hbody.
      destruct (subscript msg "message") as [e | text]; [ discriminate | ].
      destruct (first_slice 50 text) as [e | head]; [ discriminate | ].
      now injection Hbody as <-. }
    rewrite Hrest, Hw1, with_page_app. reflexivity.
Qed.

Lemma last_slice_suffix {A} (n : nat) (l : list A) :
  exists older, l = (older ++ last_slice n l)%list.
Proof.
  destruct n as [ | n]; cbn.
  - now exists [].
  - exists (firstn (List.length l - S n) l). now rewrite firstn_skipn.
Qed.

Lemma last_slice_length {A} (n : nat) (l : list A) :
  (0 < n)%nat -> List.length (last_slice n l) = Nat.min n (List.length l).
Proof.
  destruct n as [ | n]; [ lia | ]. intros _.
  unfold last_slice. rewrite length_skipn. lia.
Qed.

(** The end of the page after a run of the console that returns: the
    history view of the history the session holds, under its heading. *)
Lemma console_ends_with_history_view
    (message : string) (send_button : bool) (w : world)
    (history : list value) :
  chat_messages (session w) = Some history ->
  fst (chat message send_button w) = ok tt ->
  exists before,
    page (snd (chat message send_button w))
    = (page w ++ before
       ++ Subheader "📝 Message History"
          :: history_view float_repr container_repr history)%list.
Proof.
  intros Hhist Hok.
  destruct (chat message send_button w) as [r w'] eqn:E.
  cbn in Hok. cbn [snd]. subst r.
  unfold display_nlp_chat in E. rewrite !bind_show in E.
  apply bind_ok_inv in E as ([] & w1 & Hsubmit & Hrest).
  match type of Hsubmit with
  | ?m _ = _ =>
      assert (K : keeps_session m) by (unfold process_nlp_message; frame)
  end.
  specialize (K (with_page
                   (with_page
                      (with_page
                         (with_page w [Title "💬 NLP Message Processor"])
                         [Write chat_examples])
                      [TextInput "Enter your message:"])
                   [Button "Send"])).
  rewrite Hsubmit in K. destruct K as [Ks [more Kp]].
  cbn [snd session with_page page] in Ks, Kp.
  rewrite bind_show, bind_read_session in Hrest.
  cbn [session with_page] in Hrest. rewrite Ks, Hhist in Hrest.
  cbn [attribute] in Hrest. rewrite bind_ret in Hrest.
  exists ([Title "💬 NLP Message Processor"; Write chat_examples;
           TextInput "Enter your message:"; Button "Send"] ++ more)%list.
  destruct history as [ | c cs].
  - injection Hrest as <-. cbn [page with_page history_view].
    rewrite Kp. repeat rewrite <- app_assoc. reflexivity.
  - apply history_loop in Hrest. subst w'.
    cbn [page with_page history_view].
    rewrite Kp. repeat rewrite <- app_assoc. reflexivity.
Qed.

Lemma entity_block (l : list (string * value)) (w : world) :
  match l with
  | [] => ret tt
  | _ :: _ =>
      for_each l (fun kv =>
        show (Write (entry_line float_repr container_repr kv)))
  end w
  = (ok tt, with_page w (entry_lines float_repr container_repr l)).
Proof.
  unfold entry_lines. destruct l as [ | kv r].
  - unfold ret. now rewrite with_page_nil.
  - apply (for_each_show
             (fun kv => Write (entry_line float_repr container_repr kv))).
Qed.



End Console.


Lemma submission_not_recorded_witness :
  sent (snd (display_nlp_chat (replying 200 (ok assignment_reply))
               no_float_repr no_container_repr
               "Ramesh is assigned to Google project" true
               (mkWorld (session_with []) [] [])))
  = [mkRequest "POST" "http://localhost:8000/api/mcp/message"
       (Some (VDict [("message", VStr "Ramesh is assigned to Google project");
                     ("user_id", VInt 1)])) 10] /\
  chat_messages
    (session (snd (display_nlp_chat (replying 200 (ok assignment_reply))
                     no_float_repr no_container_repr
                     "Ramesh is assigned to Google project" true
                     (mkWorld (session_with []) [] []))))
  = Some [].
Proof.
  exact (display_nlp_chat_never_appends
           (replying 200 (ok assignment_reply))
           no_float_repr no_container_repr
           "Ramesh is assigned to Google project" (VInt 1) []
           (mkWorld (session_with []) [] [])
           ltac:(discriminate) eq_refl eq_refl).
Defined.

(** A submission the server accepts, in a session set up by
    [initialize_session]: one POST is sent, and the history is as empty
    after the run as before it. *)
Example accepted_submission_is_not_recorded :
  let run :=
    bind (initialize_session)
      (fun _ => display_nlp_chat (replying 200 (ok assignment_reply))
                  no_float_repr no_container_repr
                  "Ramesh is assigned to Google project" true) in
  fst (run fresh_world) = ok tt /\
  session (snd (run fresh_world)) = session_with [] /\
  sent (snd (run fresh_world))
  = [mkRequest "POST" "http://localhost:8000/api/mcp/message"
       (Some (VDict [("message", VStr "Ramesh is assigned to Google project");
                     ("user_id", VInt 1)])) 10].
Proof. repeat split. Qed.

(** The same for a submission that fails. *)
Example failed_submission_is_not_recorded :
  let run :=
    bind (initialize_session)
      (fun _ => display_nlp_chat (raising ConnectionError "Connection refused")
                  no_float_repr no_container_repr
                  "Google project active karo" true) in
  session (snd (run fresh_world)) = session_with [] /\
  page (snd (run fresh_world))
  = (console_head
     ++ [Spinner "Processing message...";
         Error "❌ Error: Cannot connect to API server. Is it running on port 8000?";
         Subheader "📝 Message History";
         Info "No messages yet. Send a message to get started!"])%list.
Proof. repeat split. Qed.

(** ** Further properties: the session and the transport helper *)

(** X1.  [initialize_session] returns, shows nothing and sends nothing;
    it keeps every field that is set and gives the others their
    defaults (user 1, role manager, an empty history); a second call
    changes nothing. *)
Theorem initialize_session_fills_defaults (w : world) :
  let w' := snd (initialize_session w) in
  initialize_session w = (ok tt, w') /\
  page w' = page w /\ sent w' = sent w /\
  user_id (session w')
    = Some (match user_id (session w) with Some v => v | None => VInt 1 end) /\
  user_role (session w')
    = Some (match user_role (session w) with
            | Some v => v
            | None => VStr "manager"
            end) /\
  chat_messages (session w')
    = Some (match chat_messages (session w) with
            | Some l => l
            | None => []
            end) /\
  initialize_session w' = (ok tt, w').
Proof.
  destruct w as [[uid role history] shown requests].
  destruct uid, role, history; cbn; repeat split; reflexivity.
Qed.

Section TransportMore.
Variable server : backend.

(** X2.  A GET or POST is one request, also when the exchange fails:
    the base URL followed by the endpoint, the timeout 10, a body only
    for a POST; the call leaves the session and the page as they were. *)
Theorem api_call_sends_one_request
    (endpoint method : string) (data : option value) (w : world) :
  method = "GET" \/ method = "POST" ->
  let w' := snd (api_call server endpoint method data w) in
  session w' = session w /\ page w' = page w /\
  sent w'
  = (sent w
     ++ [mkRequest method (API_BASE_URL ++ endpoint)
           (if (method =? "GET")%string then None else data) 10])%list.
Proof.
  intros Hm w'. subst w'. rewrite api_call_supported by exact Hm.
  cbn [snd with_sent session page sent].
  split; [ reflexivity | split; [ reflexivity | ] ].
  now destruct Hm as [-> | ->].
Qed.

End TransportMore.

Lemma api_call_sends_one_request_witness :
  sent (snd (api_call (raising ReadTimeout "Read timed out.") "/api/users"
               "GET" (Some VNone) fresh_world))
  = [mkRequest "GET" "http://localhost:8000/api/users" None 10].
Proof.
  exact (proj2 (proj2 (api_call_sends_one_request
                         (raising ReadTimeout "Read timed out.")
                         "/api/users" "GET" (Some VNone) fresh_world
                         (or_introl eq_refl)))).
Defined.

(** ** Further properties: the command console *)

Section ConsoleMore.
Variable server : backend.
Variable float_repr : spec_float -> string.
Variable container_repr : value -> string.

#[local] Abbreviation chat :=
  (display_nlp_chat server float_repr container_repr).
#[local] Abbreviation text_of := (str float_repr container_repr).

#[local] Hint Resolve keeps_api_call : frame.

(** The console up to the reply of the server. *)
Lemma console_until_reply (message : string) (uid : value) (w w1 : world)
    (reply : value) :
  message <> EmptyString ->
  user_id (session w) = Some uid ->
  process_nlp_message server message uid
    (with_page w (console_head ++ [Spinner "Processing message..."]))
    = (ok reply, w1) ->
  chat message true w
  = bind (success <- lift (get reply "success" VNone) ;;
          if truthy success then
            show (Success "✅ Message processed successfully!") ;;
            parsed <- lift (get reply "parsed" (VDict [])) ;;
            show (Subheader "🔍 Parsed Intent") ;;
            intent <- lift (get parsed "intent" (VStr "N/A")) ;;
            show (Write ("**Intent**: " ++ text_of intent)) ;;
            action <- lift (get parsed "action" (VStr "N/A")) ;;
            show (Write ("**Action**: " ++ text_of action)) ;;
            confidence <- lift (get parsed "confidence" (VInt 0)) ;;
            percent <- lift (format_percent0 confidence) ;;
            show (Write ("**Confidence**: " ++ percent)) ;;
            show (Subheader "📋 Extracted Entities") ;;
            parsed_items <- lift (items parsed) ;;
            let entities := filter not_reserved parsed_items in
            (match entities with
             | [] => ret tt
             | _ => for_each entities (fun kv =>
                      show (Write (entry_line float_repr container_repr kv)))
             end) ;;
            execution <- lift (get reply "execution" (VDict [])) ;;
            executed <- lift (get execution "success" VNone) ;;
            if truthy executed then
              show (Subheader "✨ Execution Result") ;;
              status <- lift (get execution "action" (VStr "N/A")) ;;
              show (Write ("**Status**: " ++ text_of status)) ;;
              data <- lift (get execution "data" (VDict [])) ;;
              data_items <- lift (items data) ;;
              for_each data_items (fun kv =>
                show (Write (entry_line float_repr container_repr kv)))
            else ret tt
          else
            error <- lift (get reply "error" (VStr "Unknown error")) ;;
            show (Error ("❌ Error: " ++ text_of error)))
      (fun _ =>
         show (Subheader "📝 Message History") ;;
         s <- read_session ;;
         history <- attribute "chat_messages" (chat_messages s) ;;
         match history with
         | [] => show (Info "No messages yet. Send a message to get started!")
         | _ =>
             for_each (last_slice 5 history) (fun msg =>
               text <- lift (subscript msg "message") ;;
               head <- lift (first_slice 50 text) ;;
               show (Expander ("📨 " ++ text_of head ++ "...")
                       [WriteValue msg]))
         end) w1.
Proof.
  intros Hmsg Huid Hcall.
  unfold display_nlp_chat.
  apply String.eqb_neq in Hmsg. rewrite Hmsg. cbn [andb negb].
  step. cbn [session with_page app]. rewrite Huid. cbn [attribute]. step.
  change ([Title "💬 NLP Message Processor"; Write chat_examples;
           TextInput "Enter your message:"; Button "Send";
           Spinner "Processing message..."])
    with (console_head ++ [Spinner "Processing message..."])%list.
  rewrite (bind_returned _ _ _ _ _ Hcall).
  now rewrite bind_bind.
Qed.

(** Names what the rest of a run adds to the page. *)
Ltac rest_of_page :=
  match goal with
  | |- exists _, page (snd (?m ?w0)) = _ =>
      let K := fresh "K" in
      let after := fresh "after" in
      let Hafter := fresh "Hafter" in
      assert (K : keeps_session m) by frame;
      destruct (K w0) as [_ [after Hafter]];
      exists after; rewrite Hafter
  end.

(** X3.  When the reply to a submission has no true [success], the
    console shows one error line and nothing of the reply: the text
    under [error], or "Unknown error" when the reply has no such key;
    the history view follows. *)
Theorem console_shows_only_the_error
    (message : string) (uid : value) (w w1 : world)
    (fields : list (string * value)) :
  message <> EmptyString ->
  user_id (session w) = Some uid ->
  process_nlp_message server message uid
    (with_page w (console_head ++ [Spinner "Processing message..."]))
    = (ok (VDict fields), w1) ->
  truthy (find "success" fields VNone) = false ->
  exists after,
    page (snd (chat message true w))
    = (page w1
       ++ Error ("❌ Error: "
                 ++ text_of (find "error" fields (VStr "Unknown error")))
       :: Subheader "📝 Message History" :: after)%list.
Proof.
  intros Hmsg Huid Hcall Hsucc.
  rewrite (console_until_reply _ _ _ _ _ Hmsg Huid Hcall).
  cbn [get]. step. rewrite Hsucc. step.
  rest_of_page. cbn [page with_page]. now rewrite <- app_assoc.
Qed.

(** X4.  When the exchange of a submission ends in an exception, the
    console shows the text [api_call] reports for it in one error line,
    then the history view; the run does not stop there. *)
Theorem console_reports_failed_exchange
    (message : string) (uid : value) (w : world) (e : exn) :
  message <> EmptyString ->
  user_id (session w) = Some uid ->
  fails_with server
    (with_page w (console_head ++ [Spinner "Processing message..."]))
    (request_for "/api/mcp/message" "POST"
       (Some (VDict [("message", VStr message); ("user_id", uid)]))) e ->
  exists after,
    page (snd (chat message true w))
    = (page w ++ console_head
       ++ [Spinner "Processing message...";
           Error ("❌ Error: " ++ reported e);
           Subheader "📝 Message History"] ++ after)%list.
Proof.
  intros Hmsg Huid Hfail.
  rewrite (console_until_reply message uid w _ _ Hmsg Huid
             (api_call_supported server _ "POST" _ _ (or_intror eq_refl))).
  rewrite (outcome_of_failure _ _ _ _ Hfail).
  cbn [get failure find lookup String.eqb Ascii.eqb Bool.eqb].
  step. cbn [truthy]. step. cbn [str].
  rest_of_page. cbn [page with_page with_sent].
  repeat rewrite <- app_assoc. reflexivity.
Qed.

(** X5.  A run of the console sends at most one request.  It sends none
    unless the button was pressed on a message that is not empty; what it
    sends is the POST of the message and the user id to
    [/api/mcp/message], with the timeout 10. *)
Theorem console_sends_at_most_one_post
    (message : string) (send_button : bool) (w : world) :
  exists extra,
    sent (snd (chat message send_button w)) = (sent w ++ extra)%list /\
    (List.length extra <= 1)%nat /\
    (send_button = false \/ message = EmptyString -> extra = []) /\
    (forall r, In r extra ->
       exists uid,
         user_id (session w) = Some uid /\
         r = mkRequest "POST" "http://localhost:8000/api/mcp/message"
               (Some (VDict [("message", VStr message); ("user_id", uid)]))
               10).
Proof.
  rewrite display_nlp_chat_requests.
  destruct send_button; cbn [andb].
  - destruct (String.eqb_spec message EmptyString) as [-> | Hne]; cbn [negb].
    + exists []. repeat split; cbn; auto. intros r [].
    + destruct (user_id (session w)) as [uid | ].
      * eexists. split; [ reflexivity | ]. cbn. repeat split; auto.
        -- intros [Hf | He]; [ discriminate | contradiction ].
        -- intros r [<- | []]. now exists uid.
      * exists []. repeat split; cbn; auto. intros r [].
  - exists []. repeat split; cbn; auto. intros r [].
Qed.

(** The page after a reply with a true [success]. *)
Lemma console_accepted_page
    (message : string) (uid : value) (w w1 : world)
    (fields parsed execution data : list (string * value))
    (percent : string) :
  message <> EmptyString ->
  user_id (session w) = Some uid ->
  process_nlp_message server message uid
    (with_page w (console_head ++ [Spinner "Processing message..."]))
    = (ok (VDict fields), w1) ->
  truthy (find "success" fields VNone) = true ->
  find "parsed" fields (VDict []) = VDict parsed ->
  format_percent0 (find "confidence" parsed (VInt 0)) = ok percent ->
  find "execution" fields (VDict []) = VDict execution ->
  (truthy (find "success" execution VNone) = true ->
   find "data" execution (VDict []) = VDict data) ->
  exists after,
    page (snd (chat message true w))
    = (page w1
       ++ [Success "✅ Message processed successfully!";
           Subheader "🔍 Parsed Intent";
           Write ("**Intent**: " ++ text_of (find "intent" parsed (VStr "N/A")));
           Write ("**Action**: " ++ text_of (find "action" parsed (VStr "N/A")));
           Write ("**Confidence**: " ++ percent);
           Subheader "📋 Extracted Entities"]
       ++ entry_lines float_repr container_repr (filter not_reserved parsed)
       ++ (if truthy (find "success" execution VNone)
           then Subheader "✨ Execution Result"
                :: Write ("**Status**: "
                          ++ text_of (find "action" execution (VStr "N/A")))
                :: entry_lines float_repr container_repr data
           else [])
       ++ Subheader "📝 Message History" :: after)%list.
Proof.
  intros Hmsg Huid Hcall Hsucc Hparsed Hconf Hexec Hdata.
  rewrite (console_until_reply _ _ _ _ _ Hmsg Huid Hcall).
  cbn [get]. step. rewrite Hsucc. step. rewrite Hparsed.
  cbn [get items]. step. rewrite Hconf. step.
  rewrite (bind_returned _ _ _ _ _
             (entity_block float_repr container_repr _ _)).
  step. rewrite Hexec. cbn [get]. step.
  destruct (truthy (find "success" execution VNone)) eqn:Hex.
  - step. rewrite (Hdata eq_refl). cbn [items]. step.
    rewrite (bind_returned _ _ _ _ _
               (for_each_show
                  (fun kv => Write (entry_line float_repr container_repr kv))
                  data _)).
    step. rest_of_page. cbn [page with_page].
    unfold entry_lines. repeat rewrite <- app_assoc. reflexivity.
  - step. rest_of_page. cbn [page with_page].
    unfold entry_lines. repeat rewrite <- app_assoc. reflexivity.
Qed.

(** X6.  A reply with a true [success] and neither [parsed] nor
    [execution] is shown with the defaults: intent and action N/A,
    confidence 0%, no entity line and no execution block. *)
Theorem console_defaults_for_bare_reply
    (message : string) (uid : value) (w w1 : world)
    (fields : list (string * value)) :
  message <> EmptyString ->
  user_id (session w) = Some uid ->
  process_nlp_message server message uid
    (with_page w (console_head ++ [Spinner "Processing message..."]))
    = (ok (VDict fields), w1) ->
  truthy (find "success" fields VNone) = true ->
  lookup "parsed" fields = None ->
  lookup "execution" fields = None ->
  exists after,
    page (snd (chat message true w))
    = (page w1
       ++ [Success "✅ Message processed successfully!";
           Subheader "🔍 Parsed Intent";
           Write "**Intent**: N/A"; Write "**Action**: N/A";
           Write "**Confidence**: 0%";
           Subheader "📋 Extracted Entities";
           Subheader "📝 Message History"] ++ after)%list.
Proof.
  intros Hmsg Huid Hcall Hsucc Hparsed Hexec.
  destruct (console_accepted_page message uid w w1 fields [] [] [] "0%"
              Hmsg Huid Hcall Hsucc) as [after Hafter].
  - unfold find. now rewrite Hparsed.
  - reflexivity.
  - unfold find. now rewrite Hexec.
  - discriminate.
  - exists after. exact Hafter.
Qed.

(** X7.  A reply with a true [success] whose [parsed] is there and is
    not a dict ([null], a list, ...) stops the run with an
    AttributeError, after the success line and the heading of the parsed
    intent: the default of [get] stands in for an absent key only. *)
Theorem console_raises_on_parsed_not_a_dict
    (message : string) (uid : value) (w w1 : world)
    (fields : list (string * value)) (parsed : value) :
  message <> EmptyString ->
  user_id (session w) = Some uid ->
  process_nlp_message server message uid
    (with_page w (console_head ++ [Spinner "Processing message..."]))
    = (ok (VDict fields), w1) ->
  truthy (find "success" fields VNone) = true ->
  lookup "parsed" fields = Some parsed ->
  is_dict parsed = false ->
  chat message true w
  = (throw AttributeError
       ("'" ++ type_name parsed ++ "' object has no attribute 'get'"),
     with_page w1 [Success "✅ Message processed successfully!";
                   Subheader "🔍 Parsed Intent"]).
Proof.
  intros Hmsg Huid Hcall Hsucc Hparsed Hnot.
  rewrite (console_until_reply _ _ _ _ _ Hmsg Huid Hcall).
  cbn [get]. step. rewrite Hsucc. step.
  unfold find at 1. rewrite Hparsed. step.
  destruct parsed; try discriminate Hnot;
    cbn [get]; unfold no_attribute, throw; now rewrite bind_lift_raised.
Qed.

End ConsoleMore.

Lemma console_shows_only_the_error_witness :
  exists after,
    page (snd (display_nlp_chat
                 (replying 200 (ok (VDict [("detail", VStr "Not allowed")])))
                 no_float_repr no_container_repr
                 "Google project active karo" true
                 (mkWorld (session_with []) [] [])))
    = (console_head
       ++ Spinner "Processing message..."
       :: Error "❌ Error: Unknown error"
       :: Subheader "📝 Message History" :: after)%list.
Proof.
  destruct (console_shows_only_the_error
              (replying 200 (ok (VDict [("detail", VStr "Not allowed")])))
              no_float_repr no_container_repr
              "Google project active karo" (VInt 1)
              (mkWorld (session_with []) [] []) _ _
              ltac:(discriminate) eq_refl eq_refl eq_refl) as [after H].
  exists after. exact H.
Defined.

Lemma console_reports_failed_exchange_witness :
  exists after,
    page (snd (display_nlp_chat
                 (replying 500 (ok (VDict [("success", VBool true)])))
                 no_float_repr no_container_repr
                 "Google project active karo" true
                 (mkWorld (session_with []) [] [])))
    = (console_head
       ++ [Spinner "Processing message...";
           Error "❌ Error: 500 Server Error: OK for url: http://localhost:8000/api/mcp/message";
           Subheader "📝 Message History"] ++ after)%list.
Proof.
  assert (Hfail :
    fails_with (replying 500 (ok (VDict [("success", VBool true)])))
      (with_page (mkWorld (session_with []) [] [])
         (console_head ++ [Spinner "Processing message..."]))
      (request_for "/api/mcp/message" "POST"
         (Some (VDict [("message", VStr "Google project active karo");
                       ("user_id", VInt 1)])))
      (mkExn HTTPError
         "500 Server Error: OK for url: http://localhost:8000/api/mcp/message")).
  { eapply error_status; reflexivity. }
  destruct (console_reports_failed_exchange
              (replying 500 (ok (VDict [("success", VBool true)])))
              no_float_repr no_container_repr
              "Google project active karo" (VInt 1)
              (mkWorld (session_with []) [] []) _
              ltac:(discriminate) eq_refl Hfail) as [after H].
  exists after. exact H.
Defined.

Lemma console_sends_at_most_one_post_witness :
  exists extra,
    sent (snd (display_nlp_chat (replying 200 (ok assignment_reply))
                 no_float_repr no_container_repr
                 "Google project active karo" false
                 (mkWorld (session_with []) [] [])))
    = extra /\ extra = [].
Proof.
  destruct (console_sends_at_most_one_post
              (replying 200 (ok assignment_reply))
              no_float_repr no_container_repr
              "Google project active karo" false
              (mkWorld (session_with []) [] []))
    as (extra & Hsent & _ & Hidle & _).
  exists extra. split; [ exact Hsent | exact (Hidle (or_introl eq_refl)) ].
Defined.

Lemma console_defaults_witness :
  exists after,
    page (snd (display_nlp_chat
                 (replying 200 (ok (VDict [("success", VBool true)])))
                 no_float_repr no_container_repr
                 "Google project active karo" true
                 (mkWorld (session_with []) [] [])))
    = (console_head
       ++ [Spinner "Processing message...";
           Success "✅ Message processed successfully!";
           Subheader "🔍 Parsed Intent";
           Write "**Intent**: N/A"; Write "**Action**: N/A";
           Write "**Confidence**: 0%";
           Subheader "📋 Extracted Entities";
           Subheader "📝 Message History"] ++ after)%list.
Proof.
  destruct (console_defaults_for_bare_reply
              (replying 200 (ok (VDict [("success", VBool true)])))
              no_float_repr no_container_repr
              "Google project active karo" (VInt 1)
              (mkWorld (session_with []) [] []) _ _
              ltac:(discriminate) eq_refl eq_refl eq_refl eq_refl eq_refl)
    as [after H].
  exists after. exact H.
Defined.

Lemma console_raises_witness :
  display_nlp_chat
    (replying 200 (ok (VDict [("success", VBool true); ("parsed", VNone)])))
    no_float_repr no_container_repr "Google project active karo" true
    (mkWorld (session_with []) [] [])
  = (throw AttributeError "'NoneType' object has no attribute 'get'",
     mkWorld (session_with [])
       (console_head
        ++ [Spinner "Processing message...";
            Success "✅ Message processed successfully!";
            Subheader "🔍 Parsed Intent"])
       [mkRequest "POST" "http://localhost:8000/api/mcp/message"
          (Some (VDict [("message", VStr "Google project active karo");
                        ("user_id", VInt 1)])) 10]).
Proof.
  exact (console_raises_on_parsed_not_a_dict
           (replying 200
              (ok (VDict [("success", VBool true); ("parsed", VNone)])))
           no_float_repr no_container_repr
           "Google project active karo" (VInt 1)
           (mkWorld (session_with []) [] []) _ _ VNone
           ltac:(discriminate) eq_refl eq_refl eq_refl eq_refl eq_refl).
Defined.

(** ** Further properties: the projects table *)

Lemma malformed_row_raises (p : value) (w : world) :
  malformed p -> exists e, project_row p w = (inl e, w).
Proof.
  intros [Hnot | (kvs & v & -> & Hstatus & Hv)].
  - destruct p; try discriminate Hnot; eexists; reflexivity.
  - unfold project_row, bind, lift, get, ok, find. cbv beta iota.
    rewrite Hstatus. cbv beta iota.
    destruct v; try (eexists; reflexivity).
    now contradiction (Hv s).
Qed.

Lemma comprehension_raises {A B} (f : A -> M B) (l : list A) (x : A) :
  (forall a, pure (f a)) ->
  In x l ->
  (forall w, exists e, f x w = (inl e, w)) ->
  forall w, exists e, comprehension l f w = (inl e, w).
Proof.
  intros Hpure Hin Hx. induction l as [ | y r IH]; [ contradiction | ].
  intro w. cbn [comprehension]. unfold bind at 1.
  pose proof (Hpure y w) as Hy.
  destruct (f y w) as [[e | b] w1] eqn:E; cbn in Hy; subst w1.
  - now exists e.
  - destruct Hin as [-> | Hin].
    + destruct (Hx w) as [e He]. rewrite He in E. discriminate E.
    + destruct (IH Hin w) as [e He]. exists e.
      unfold bind. now rewrite He.
Qed.

(** X8.  One project that is not a dict, or whose [status] is there and
    is not text, makes the whole table fail: the call raises and puts
    nothing on the page, whatever the other projects are. *)
Theorem display_projects_table_fails_as_a_whole
    (l : list value) (p : value) (w : world) :
  In p l -> malformed p ->
  exists e, display_projects_table (VList l) w = (inl e, w).
Proof.
  intros Hin Hbad.
  assert (Hne : truthy (VList l) = true) by (destruct l; [ contradiction | reflexivity ]).
  unfold display_projects_table. rewrite Hne. cbn [negb iterate].
  rewrite bind_lift_ok.
  destruct (comprehension_raises project_row l p pure_project_row Hin
              (fun w0 => malformed_row_raises p w0 Hbad) w) as [e He].
  exists e. unfold bind. now rewrite He.
Qed.

Lemma display_projects_table_fails_witness :
  exists e,
    display_projects_table
      (VList [project "Search" [("estimated_value", VInt 120000)];
              VDict [("name", VStr "Maps"); ("status", VNone)]])
      fresh_world
    = (inl e, fresh_world).
Proof.
  apply (display_projects_table_fails_as_a_whole _
           (VDict [("name", VStr "Maps"); ("status", VNone)])).
  - right. now left.
  - right. exists [("name", VStr "Maps"); ("status", VNone)], VNone.
    repeat split; discriminate.
Defined.

Lemma to_upper_not_lower (c : ascii) : is_lower (to_upper c) = false.
Proof.
  destruct c as [[] [] [] [] [] [] [] []]; reflexivity.
Qed.

Lemma upper_length (s : string) : String.length (upper s) = String.length s.
Proof. induction s as [ | c r IH]; cbn; congruence. Qed.

Lemma upper_has_no_lower (s : string) (c : ascii) :
  In c (list_ascii_of_string (upper s)) -> is_lower c = false.
Proof.
  induction s as [ | d r IH]; cbn; [ contradiction | ].
  intros [<- | Hin]; [ apply to_upper_not_lower | exact (IH Hin) ].
Qed.

Lemma case_keeps_ascii (c : ascii) :
  (nat_of_ascii c <? 128)%nat = true ->
  (nat_of_ascii (to_upper c) <? 128)%nat = true /\
  (nat_of_ascii (to_lower c) <? 128)%nat = true.
Proof.
  destruct c as [[] [] [] [] [] [] [] []]; intro H;
    try discriminate H; split; reflexivity.
Qed.

Lemma upper_keeps_ascii (s : string) :
  ascii_only s = true -> ascii_only (upper s) = true.
Proof.
  unfold ascii_only. induction s as [ | c r IH]; cbn; [ reflexivity | ].
  intro H. apply andb_true_iff in H as [Hc Hr]. apply andb_true_iff.
  split; [ exact (proj1 (case_keeps_ascii c Hc)) | exact (IH Hr) ].
Qed.

(** X9.  In every row that is built from a project whose status is ASCII
    text (or is absent, which gives N/A), the Status cell is that status
    in upper case: the same characters with the letters a-z raised, so
    the same length, no lower-case letter, and ASCII text again. *)
Theorem project_row_status_is_upper_case
    (kvs : list (string * value)) (row : value) (w w' : world) :
  project_row (VDict kvs) w = (ok row, w') ->
  ascii_text (find "status" kvs (VStr "N/A")) = true ->
  exists s,
    find "status" kvs (VStr "N/A") = VStr s /\
    status_cell row = Some (upper s) /\
    String.length (upper s) = String.length s /\
    (forall c, In c (list_ascii_of_string (upper s)) -> is_lower c = false) /\
    ascii_only (upper s) = true.
Proof.
  unfold project_row, bind, lift, get, ok. cbv beta iota.
  destruct (find "status" kvs (VStr "N/A")) as [ | | | | s | | ] eqn:Hs;
    try discriminate.
  cbv beta iota. cbn [ascii_text].
  destruct (truthy (find "estimated_value" kvs VNone)); cbv beta iota.
  - destruct (format_comma_f0 (find "estimated_value" kvs (VInt 0)));
      [ discriminate | ].
    cbn. intros [= <- _] Hascii. exists s.
    repeat split;
      [ apply upper_length | apply upper_has_no_lower
      | exact (upper_keeps_ascii s Hascii) ].
  - cbn. intros [= <- _] Hascii. exists s.
    repeat split;
      [ apply upper_length | apply upper_has_no_lower
      | exact (upper_keeps_ascii s Hascii) ].
Qed.

Lemma project_row_status_witness :
  status_cell (table_row "Search" "₹120,000") = Some "ACTIVE".
Proof.
  destruct (project_row_status_is_upper_case
              [("name", VStr "Search"); ("client", VStr "Google");
               ("status", VStr "active"); ("estimated_value", VInt 120000)]
              (table_row "Search" "₹120,000") fresh_world fresh_world
              eq_refl eq_refl) as (s & Hs & Hcell & _).
  injection Hs as <-. exact Hcell.
Defined.

(** ** Further properties: the server status and the labels *)

Section SidebarMore.
Variable server : backend.
Variable float_repr : spec_float -> string.
Variable container_repr : value -> string.

(** X10.  When the exchange of the health call ends in an exception,
    whatever it is, the status block returns and shows the disconnected
    state. *)
Theorem sidebar_disconnected_on_failed_exchange (w : world) (e : exn) :
  fails_with server (with_page w [Subheader "🔗 Server Status"])
    (get_request "/health") e ->
  display_sidebar_server_status server float_repr container_repr w
  = (ok tt,
     with_page
       (with_sent (with_page w [Subheader "🔗 Server Status"])
          (get_request "/health"))
       [Error "❌ Cannot connect to API server"]).
Proof.
  intro Hfail. unfold display_sidebar_server_status.
  rewrite bind_show.
  rewrite (bind_returned _ _ _ _ _
             (api_call_supported server "/health" "GET" None _
                (or_introl eq_refl))).
  change (request_for "/health" "GET" None) with (get_request "/health").
  rewrite (outcome_of_failure _ _ _ _ Hfail).
  reflexivity.
Qed.

(** X11.  When the health call returns a value that is not a dict (the
    body was a JSON list, text, number or null), the status block raises
    an AttributeError right after its heading and the request. *)
Theorem sidebar_status_raises_on_non_dict (w w1 : world) (health : value) :
  api_call server "/health" "GET" None
    (with_page w [Subheader "🔗 Server Status"]) = (ok health, w1) ->
  is_dict health = false ->
  display_sidebar_server_status server float_repr container_repr w
  = (throw AttributeError
       ("'" ++ type_name health ++ "' object has no attribute 'get'"), w1).
Proof.
  intros Hcall Hnot. unfold display_sidebar_server_status.
  rewrite bind_show, (bind_returned _ _ _ _ _ Hcall).
  destruct health; try discriminate Hnot; reflexivity.
Qed.

End SidebarMore.

Lemma sidebar_disconnected_witness :
  display_sidebar_server_status (replying 503 (ok health_reply))
    no_float_repr no_container_repr fresh_world
  = (ok tt,
     mkWorld fresh_session
       [Subheader "🔗 Server Status"; Error "❌ Cannot connect to API server"]
       [mkRequest "GET" "http://localhost:8000/health" None 10]).
Proof.
  assert (Hfail :
    fails_with (replying 503 (ok health_reply))
      (with_page fresh_world [Subheader "🔗 Server Status"])
      (get_request "/health")
      (mkExn HTTPError
         "503 Server Error: OK for url: http://localhost:8000/health")).
  { eapply error_status; reflexivity. }
  exact (sidebar_disconnected_on_failed_exchange
           (replying 503 (ok health_reply)) no_float_repr no_container_repr
           fresh_world _ Hfail).
Defined.

Lemma sidebar_status_raises_witness :
  display_sidebar_server_status (replying 200 (ok (VList [])))
    no_float_repr no_container_repr fresh_world
  = (throw AttributeError "'list' object has no attribute 'get'",
     mkWorld fresh_session [Subheader "🔗 Server Status"]
       [mkRequest "GET" "http://localhost:8000/health" None 10]).
Proof.
  exact (sidebar_status_raises_on_non_dict (replying 200 (ok (VList [])))
           no_float_repr no_container_repr fresh_world _ (VList [])
           eq_refl eq_refl).
Defined.

Lemma replace_length (a b : ascii) (s : string) :
  String.length (replace a b s) = String.length s.
Proof. induction s as [ | c r IH]; cbn; congruence. Qed.

Lemma title_from_length (previous : bool) (s : string) :
  String.length (title_from previous s) = String.length s.
Proof.
  revert previous. induction s as [ | c r IH]; intro previous; cbn;
    [ reflexivity | now rewrite IH ].
Qed.

Lemma case_keeps_cased (c : ascii) :
  is_cased (to_upper c) = is_cased c /\ is_cased (to_lower c) = is_cased c /\
  to_upper (to_upper c) = to_upper c /\ to_lower (to_lower c) = to_lower c.
Proof.
  destruct c as [[] [] [] [] [] [] [] []]; repeat split; reflexivity.
Qed.

Lemma title_from_idempotent (previous : bool) (s : string) :
  title_from previous (title_from previous s) = title_from previous s.
Proof.
  revert previous. induction s as [ | c r IH]; intro previous; cbn;
    [ reflexivity | ].
  destruct (case_keeps_cased c) as (Hu & Hl & Huu & Hll).
  destruct previous.
  - now rewrite Hll, Hl, IH.
  - now rewrite Huu, Hu, IH.
Qed.

Lemma case_keeps_space (c : ascii) :
  (Ascii.eqb (to_upper c) "_" = Ascii.eqb c "_") /\
  (Ascii.eqb (to_lower c) "_" = Ascii.eqb c "_").
Proof.
  destruct c as [[] [] [] [] [] [] [] []]; split; reflexivity.
Qed.

Lemma replace_after_title (previous : bool) (s : string) :
  replace "_" " " (title_from previous (replace "_" " " s))
  = title_from previous (replace "_" " " s).
Proof.
  revert previous. induction s as [ | c r IH]; intro previous; cbn;
    [ reflexivity | ].
  rewrite IH. f_equal.
  destruct (Ascii.eqb c "_") eqn:E.
  - now destruct previous.
  - destruct (case_keeps_space c) as [Hu Hl].
    destruct previous; [ now rewrite Hl, E | now rewrite Hu, E ].
Qed.

Lemma humanized_has_no_underscore (previous : bool) (s : string) (c : ascii) :
  In c (list_ascii_of_string (title_from previous (replace "_" " " s))) ->
  c <> "_"%char.
Proof.
  revert previous. induction s as [ | d r IH]; intro previous; cbn;
    [ contradiction | ].
  intros [<- | Hin]; [ | exact (IH _ Hin) ].
  destruct (Ascii.eqb d "_") eqn:E.
  - now destruct previous.
  - destruct (case_keeps_space d) as [Hu Hl].
    destruct previous; apply Ascii.eqb_neq; [ now rewrite Hl | now rewrite Hu ].
Qed.

Lemma humanized_keeps_ascii (previous : bool) (s : string) :
  ascii_only s = true ->
  ascii_only (title_from previous (replace "_" " " s)) = true.
Proof.
  unfold ascii_only. revert previous.
  induction s as [ | c r IH]; intro previous; cbn [replace title_from];
    [ reflexivity | ].
  cbn [list_ascii_of_string forallb].
  intro H. apply andb_true_iff in H as [Hc Hr]. apply andb_true_iff.
  split; [ | exact (IH _ Hr) ].
  destruct (Ascii.eqb c "_").
  - now destruct previous.
  - destruct (case_keeps_ascii c Hc) as [Hu Hl]. now destruct previous.
Qed.

(** X12.  For a key that is ASCII text, the label made from it has the
    length of the key and no underscore, making a label from the label
    gives the label back, and the label is ASCII text again. *)
Theorem humanize_shape (key : string) :
  ascii_only key = true ->
  String.length (humanize key) = String.length key /\
  (forall c, In c (list_ascii_of_string (humanize key)) -> c <> "_"%char) /\
  humanize (humanize key) = humanize key /\
  ascii_only (humanize key) = true.
Proof.
  intro Hascii. unfold humanize, title. split; [ | split; [ | split ] ].
  - now rewrite title_from_length, replace_length.
  - apply humanized_has_no_underscore.
  - now rewrite replace_after_title, title_from_idempotent.
  - exact (humanized_keeps_ascii false key Hascii).
Qed.

Lemma humanize_shape_witness :
  humanize "pending_payments_count" = "Pending Payments Count" /\
  String.length (humanize "pending_payments_count") = 22%nat /\
  humanize (humanize "pending_payments_count")
  = humanize "pending_payments_count".
Proof.
  destruct (humanize_shape "pending_payments_count" eq_refl)
    as (Hlen & _ & Hfix & _).
  split; [ reflexivity | split; [ exact Hlen | exact Hfix ] ].
Defined.

(** ** Stepping through a page *)

Lemma with_widgets_nil (s : screen) : with_widgets s [] = s.
Proof. destruct s. unfold with_widgets. cbn. now rewrite app_nil_r. Qed.

Lemma with_widgets_app (s : screen) (a b : list widget) :
  with_widgets (with_widgets s a) b = with_widgets s (a ++ b).
Proof. unfold with_widgets. cbn. now rewrite app_assoc. Qed.

Lemma run_returned {A} (m : M A) (s : screen) (r : res A) (w : world) :
  m (inner s) = (r, w) ->
  run m s
  = (r, mkScreen (session w) (widgets s ++ map Basic (page w)) (sent w)).
Proof. unfold run, inner. now intros ->. Qed.

Lemma then_assoc {A B C} (m : P A) (k1 : A -> P B) (k2 : B -> P C)
    (s : screen) :
  and_then (and_then m k1) k2 s = and_then m (fun a => and_then (k1 a) k2) s.
Proof. unfold and_then. now destruct (m s) as [[e | a] s1]. Qed.

Lemma then_returned {A B} (m : P A) (k : A -> P B) (s s1 : screen) (a : A) :
  m s = (ok a, s1) -> and_then m k s = k a s1.
Proof. unfold and_then. now intros ->. Qed.

Lemma then_raised {A B} (m : P A) (k : A -> P B) (s s1 : screen) (e : exn) :
  m s = (inl e, s1) -> and_then m k s = (inl e, s1).
Proof. unfold and_then. now intros ->. Qed.

Lemma then_done {A B} (a : A) (k : A -> P B) (s : screen) :
  and_then (done a) k s = k a s.
Proof. reflexivity. Qed.

Lemma then_fail_ok {A B} (a : A) (k : A -> P B) (s : screen) :
  and_then (fail (ok a)) k s = k a s.
Proof. reflexivity. Qed.

Lemma then_fail_raised {A B} (e : exn) (k : A -> P B) (s : screen) :
  and_then (fail (inl e)) k s = (inl e, s).
Proof. reflexivity. Qed.

Lemma then_place {B} (w : widget) (k : unit -> P B) (s : screen) :
  and_then (place w) k s = k tt (with_widgets s [w]).
Proof. reflexivity. Qed.

Lemma then_show {B} (e : element) (k : unit -> P B) (s : screen) :
  and_then (run (show e)) k s = k tt (with_widgets s [Basic e]).
Proof. reflexivity. Qed.

Lemma run_show (e : element) (s : screen) :
  run (show e) s = (ok tt, with_widgets s [Basic e]).
Proof. reflexivity. Qed.

Lemma then_read_session {B} (k : session_state -> P B) (s : screen) :
  and_then (run read_session) k s = k (state s) s.
Proof.
  unfold and_then, run, read_session. cbn.
  rewrite app_nil_r. now destruct s.
Qed.

Lemma then_write_session {B} (st : session_state) (k : unit -> P B)
    (s : screen) :
  and_then (run (write_session st)) k s = k tt (with_state s st).
Proof.
  unfold and_then, run, write_session, with_state. cbn.
  now rewrite app_nil_r.
Qed.

Lemma run_write_session (st : session_state) (s : screen) :
  run (write_session st) s = (ok tt, with_state s st).
Proof.
  unfold run, write_session, with_state. cbn. now rewrite app_nil_r.
Qed.

Lemma then_attribute {A B} (name : string) (a : A) (k : A -> P B)
    (s : screen) :
  and_then (run (attribute name (Some a))) k s = k a s.
Proof.
  unfold and_then, run, attribute, ret. cbn.
  rewrite app_nil_r. now destruct s.
Qed.

(** A GET run on a screen: the value it comes to and the request. *)
Lemma then_api_get {B} (server : backend) (endpoint : string)
    (k : value -> P B) (s : screen) :
  and_then (run (api_call server endpoint "GET" None)) k s
  = k (outcome server (inner s) (get_request endpoint))
      (with_request s (get_request endpoint)).
Proof.
  unfold and_then.
  rewrite (run_returned _ _ _ _
             (api_call_supported server endpoint "GET" None (inner s)
                (or_introl eq_refl))).
  cbn. unfold with_request. now rewrite app_nil_r.
Qed.

Lemma inner_with_widgets (s : screen) (more : list widget) :
  inner (with_widgets s more) = inner s.
Proof. reflexivity. Qed.

(** Steps a page forward over the parts whose outcome is known. *)
Ltac pstep :=
  repeat first
    [ rewrite then_assoc | rewrite then_show | rewrite then_place
    | rewrite then_done | rewrite then_fail_ok | rewrite then_read_session
    | rewrite then_write_session | rewrite then_api_get
    | rewrite with_widgets_app | rewrite inner_with_widgets ].

(** ** Further properties: the dashboards *)

Section Dashboards.
Variable server : backend.
Variable float_repr : spec_float -> string.
Variable container_repr : value -> string.

#[local] Abbreviation text_of := (str float_repr container_repr).
#[local] Abbreviation manager_dashboard :=
  (display_manager_dashboard server float_repr container_repr).
#[local] Abbreviation executive_dashboard :=
  (display_executive_dashboard server float_repr container_repr).

Lemma manager_dashboard_error
    (s : screen) (uid : value) (fields : list (string * value)) :
  user_id (state s) = Some uid ->
  truthy (find "success" fields VNone) = false ->
  outcome server (inner s)
    (get_request ("/api/manager/dashboard/" ++ text_of uid)) = VDict fields ->
  manager_dashboard s
  = (ok tt,
     with_widgets
       (with_request s
          (get_request ("/api/manager/dashboard/" ++ text_of uid)))
       [Basic (Title "👔 Manager Dashboard");
        Basic (Error ("Error loading dashboard: "
                      ++ text_of (find "error" fields
                                    (VStr "Unknown error"))))]).
Proof.
  intros Huid Hsucc Hreply.
  unfold display_manager_dashboard, get_manager_dashboard.
  pstep. cbn [state with_widgets]. rewrite Huid, then_attribute.
  pstep. rewrite Hreply. cbn [get]. pstep.
  rewrite Hsucc. cbn [negb]. pstep. rewrite run_show.
  unfold with_widgets, with_request. cbn. now rewrite <- app_assoc.
Qed.

Lemma executive_dashboard_error
    (s : screen) (uid : value) (fields : list (string * value)) :
  user_id (state s) = Some uid ->
  truthy (find "success" fields VNone) = false ->
  outcome server (inner s)
    (get_request ("/api/executive/dashboard/" ++ text_of uid))
    = VDict fields ->
  executive_dashboard s
  = (ok tt,
     with_widgets
       (with_request s
          (get_request ("/api/executive/dashboard/" ++ text_of uid)))
       [Basic (Title "👤 Executive Dashboard");
        Basic (Error ("Error loading dashboard: "
                      ++ text_of (find "error" fields
                                    (VStr "Unknown error"))))]).
Proof.
  intros Huid Hsucc Hreply.
  unfold display_executive_dashboard, get_executive_dashboard.
  pstep. cbn [state with_widgets]. rewrite Huid, then_attribute.
  pstep. rewrite Hreply. cbn [get]. pstep.
  rewrite Hsucc. cbn [negb]. pstep. rewrite run_show.
  unfold with_widgets, with_request. cbn. now rewrite <- app_assoc.
Qed.

(** X13.  When the dashboard call comes to a dict with no true
    [success], either dashboard shows its title and one error line with
    the text under [error] ("Unknown error" when there is none), and
    nothing else: no metric and no table. *)
Theorem dashboards_show_only_the_error
    (s : screen) (uid : value) (fields : list (string * value)) :
  user_id (state s) = Some uid ->
  truthy (find "success" fields VNone) = false ->
  (outcome server (inner s)
     (get_request ("/api/manager/dashboard/" ++ text_of uid)) = VDict fields ->
   manager_dashboard s
   = (ok tt,
      with_widgets
        (with_request s
           (get_request ("/api/manager/dashboard/" ++ text_of uid)))
        [Basic (Title "👔 Manager Dashboard");
         Basic (Error ("Error loading dashboard: "
                       ++ text_of (find "error" fields
                                     (VStr "Unknown error"))))])) /\
  (outcome server (inner s)
     (get_request ("/api/executive/dashboard/" ++ text_of uid)) = VDict fields ->
   executive_dashboard s
   = (ok tt,
      with_widgets
        (with_request s
           (get_request ("/api/executive/dashboard/" ++ text_of uid)))
        [Basic (Title "👤 Executive Dashboard");
         Basic (Error ("Error loading dashboard: "
                       ++ text_of (find "error" fields
                                     (VStr "Unknown error"))))])).
Proof.
  intros Huid Hsucc. split; intro Hreply.
  - exact (manager_dashboard_error s uid fields Huid Hsucc Hreply).
  - exact (executive_dashboard_error s uid fields Huid Hsucc Hreply).
Qed.

End Dashboards.

(** ** How page computations treat the screen *)

Lemma keeps_of_pure {A} (m : M A) : pure m -> keeps_session m.
Proof. intros H w. rewrite H. apply extends_refl. Qed.

Lemma keeps_display_projects_table (projects : value) :
  keeps_session (display_projects_table projects).
Proof.
  unfold display_projects_table. destruct (negb (truthy projects)).
  - apply keeps_show.
  - apply keeps_bind; [ apply keeps_lift | intro ps ].
    apply keeps_bind; [ | intro; apply keeps_show ].
    apply keeps_of_pure, pure_comprehension, pure_project_row.
Qed.

Lemma silent_display_projects_table (projects : value) :
  silent (display_projects_table projects).
Proof.
  unfold display_projects_table. destruct (negb (truthy projects)).
  - apply silent_show.
  - apply silent_bind; [ apply silent_lift | intro ps ].
    apply silent_bind; [ | intro; apply silent_show ].
    apply pure_silent, pure_comprehension, pure_project_row.
Qed.

Lemma quiet_done {A} (a : A) : quiet (done a).
Proof. now intro s. Qed.

Lemma quiet_fail {A} (r : res A) : quiet (fail r).
Proof. now intro s. Qed.

Lemma quiet_place (w : widget) : quiet (place w).
Proof. now intro s. Qed.

Lemma quiet_run {A} (m : M A) : silent m -> quiet (run m).
Proof.
  intros H s. unfold run. specialize (H (mkWorld (state s) [] (requests s))).
  now destruct (m _) as [r w].
Qed.

Lemma quiet_and_then {A B} (m : P A) (k : A -> P B) :
  quiet m -> (forall a, quiet (k a)) -> quiet (and_then m k).
Proof.
  intros Hm Hk s. unfold and_then.
  specialize (Hm s). destruct (m s) as [[e | a] s1]; cbn in *.
  - exact Hm.
  - now rewrite Hk.
Qed.

Lemma stateless_done {A} (a : A) : stateless (done a).
Proof. now intro s. Qed.

Lemma stateless_fail {A} (r : res A) : stateless (fail r).
Proof. now intro s. Qed.

Lemma stateless_place (w : widget) : stateless (place w).
Proof. now intro s. Qed.

Lemma stateless_run {A} (m : M A) : keeps_session m -> stateless (run m).
Proof.
  intros H s. unfold run.
  destruct (H (mkWorld (state s) [] (requests s))) as [Hs _].
  now destruct (m _) as [r w].
Qed.

Lemma stateless_and_then {A B} (m : P A) (k : A -> P B) :
  stateless m -> (forall a, stateless (k a)) -> stateless (and_then m k).
Proof.
  intros Hm Hk s. unfold and_then.
  specialize (Hm s). destruct (m s) as [[e | a] s1]; cbn in *.
  - exact Hm.
  - now rewrite Hk.
Qed.

Lemma adds_done {A} (a : A) : adds_widgets (done a).
Proof. intro s. exists []. cbn. now rewrite app_nil_r. Qed.

Lemma adds_fail {A} (r : res A) : adds_widgets (fail r).
Proof. intro s. exists []. cbn. now rewrite app_nil_r. Qed.

Lemma adds_place (w : widget) : adds_widgets (place w).
Proof. intro s. now exists [w]. Qed.

Lemma adds_run {A} (m : M A) : adds_widgets (run m).
Proof.
  intro s. unfold run. destruct (m _) as [r w]. cbn. eauto.
Qed.

Lemma adds_and_then {A B} (m : P A) (k : A -> P B) :
  adds_widgets m -> (forall a, adds_widgets (k a)) ->
  adds_widgets (and_then m k).
Proof.
  intros Hm Hk s. unfold and_then.
  destruct (Hm s) as [m1 H1]. destruct (m s) as [[e | a] s1]; cbn in *.
  - now exists m1.
  - destruct (Hk a s1) as [m2 H2]. exists (m1 ++ m2)%list.
    now rewrite H2, H1, app_assoc.
Qed.

#[local] Hint Resolve quiet_done quiet_fail quiet_place stateless_done
  stateless_fail stateless_place adds_done adds_fail adds_place adds_run
  silent_display_projects_table keeps_display_projects_table : frame.

(** Walks a page computation along its steps and branches. *)
Ltac pframe :=
  repeat (intros;
    match goal with
    | |- quiet (and_then _ _) => apply quiet_and_then
    | |- stateless (and_then _ _) => apply stateless_and_then
    | |- adds_widgets (and_then _ _) => apply adds_and_then
    | |- quiet (run _) => apply quiet_run
    | |- stateless (run _) => apply stateless_run
    | |- _ (if ?b then _ else _) => destruct b
    | |- _ (match ?x with _ => _ end) => destruct x
    | |- _ => solve [ auto with frame ]
    | |- _ => solve [ frame ]
    end).

Lemma quiet_display_metrics (float_repr : spec_float -> string)
    (container_repr : value -> string) (statistics : value) :
  quiet (display_metrics float_repr container_repr statistics).
Proof. unfold display_metrics, st_metric. pframe. Qed.

Lemma stateless_display_metrics (float_repr : spec_float -> string)
    (container_repr : value -> string) (statistics : value) :
  stateless (display_metrics float_repr container_repr statistics).
Proof. unfold display_metrics, st_metric. pframe. Qed.

#[local] Hint Resolve quiet_display_metrics stateless_display_metrics : frame.

Section DashboardRequests.
Variable server : backend.
Variable float_repr : spec_float -> string.
Variable container_repr : value -> string.

#[local] Abbreviation text_of := (str float_repr container_repr).

(** X14.  A dashboard sends one request, the GET of its own endpoint
    followed by the user id of the session, whatever comes back and
    however the rendering ends; it leaves the session as it was. *)
Theorem dashboards_fetch_once (s : screen) (uid : value) :
  user_id (state s) = Some uid ->
  (requests (snd (display_manager_dashboard server float_repr
                    container_repr s))
   = (requests s
      ++ [get_request ("/api/manager/dashboard/" ++ text_of uid)])%list /\
   state (snd (display_manager_dashboard server float_repr
                 container_repr s)) = state s) /\
  (requests (snd (display_executive_dashboard server float_repr
                    container_repr s))
   = (requests s
      ++ [get_request ("/api/executive/dashboard/" ++ text_of uid)])%list /\
   state (snd (display_executive_dashboard server float_repr
                 container_repr s)) = state s).
Proof.
  intro Huid. split; split.
  - unfold display_manager_dashboard, get_manager_dashboard.
    pstep. cbn [state with_widgets]. rewrite Huid, then_attribute. pstep.
    match goal with
    | |- requests (snd (?m ?s0)) = _ =>
        assert (K : quiet m) by pframe; rewrite (K s0)
    end.
    reflexivity.
  - unfold display_manager_dashboard, get_manager_dashboard.
    pstep. cbn [state with_widgets]. rewrite Huid, then_attribute. pstep.
    match goal with
    | |- state (snd (?m ?s0)) = _ =>
        assert (K : stateless m) by pframe; rewrite (K s0)
    end.
    reflexivity.
  - unfold display_executive_dashboard, get_executive_dashboard.
    pstep. cbn [state with_widgets]. rewrite Huid, then_attribute. pstep.
    match goal with
    | |- requests (snd (?m ?s0)) = _ =>
        assert (K : quiet m) by pframe; rewrite (K s0)
    end.
    reflexivity.
  - unfold display_executive_dashboard, get_executive_dashboard.
    pstep. cbn [state with_widgets]. rewrite Huid, then_attribute. pstep.
    match goal with
    | |- state (snd (?m ?s0)) = _ =>
        assert (K : stateless m) by pframe; rewrite (K s0)
    end.
    reflexivity.
Qed.

End DashboardRequests.

(** ** Further properties: the sidebar *)

Section Sidebar2.
Variable server : backend.
Variable float_repr : spec_float -> string.
Variable container_repr : value -> string.

#[local] Abbreviation text_of := (str float_repr container_repr).
#[local] Abbreviation sidebar :=
  (display_sidebar server float_repr container_repr).
#[local] Abbreviation users_block :=
  (sidebar_users server float_repr container_repr).
#[local] Abbreviation rest_block :=
  (sidebar_rest server float_repr container_repr).
#[local] Abbreviation status_block :=
  (display_sidebar_server_status server float_repr container_repr).

#[local] Hint Resolve keeps_api_call : frame.

Lemma then_ext {A B} (m : P A) (k k' : A -> P B) (s : screen) :
  (forall a s', k a s' = k' a s') -> and_then m k s = and_then m k' s.
Proof.
  intro H. unfold and_then. destruct (m s) as [[e | a] s1]; [ reflexivity | ].
  apply H.
Qed.

Lemma display_sidebar_split (choice : nat) (page : nav) (s : screen) :
  sidebar choice page s
  = and_then (users_block choice) (fun _ => rest_block page)
      (with_widgets s [Basic (Title "⚙️ Settings");
                       Basic (Subheader "👤 User Profile")]).
Proof.
  unfold display_sidebar, sidebar_users, sidebar_rest.
  rewrite !then_show, with_widgets_app. cbn [app].
  rewrite then_assoc. apply then_ext. intros users_result s1.
  rewrite then_assoc. reflexivity.
Qed.

Lemma keeps_status_block : keeps_session status_block.
Proof. unfold display_sidebar_server_status. frame. Qed.

(** The status block sends the health request and nothing else. *)
Lemma status_block_requests (w : world) :
  sent (snd (status_block w)) = (sent w ++ [get_request "/health"])%list.
Proof.
  unfold display_sidebar_server_status.
  rewrite bind_show.
  rewrite (bind_returned _ _ _ _ _
             (api_call_supported server "/health" "GET" None _
                (or_introl eq_refl))).
  match goal with
  | |- sent (snd (?m ?w0)) = _ => assert (K : silent m) by frame; rewrite (K w0)
  end.
  reflexivity.
Qed.

Lemma stateless_rest (page : nav) : stateless (rest_block page).
Proof.
  unfold sidebar_rest.
  repeat (apply stateless_and_then; [ | intro ]);
    try apply stateless_place; try apply stateless_done;
    apply stateless_run; first [ apply keeps_show | apply keeps_status_block ].
Qed.

Lemma rest_requests (page : nav) (s : screen) :
  requests (snd (rest_block page s))
  = (requests s ++ [get_request "/health"])%list.
Proof.
  unfold sidebar_rest. pstep.
  unfold and_then at 1.
  destruct (run status_block _) as [[e | []] s1] eqn:E.
  - apply (f_equal snd) in E. cbn [snd] in *. subst s1.
    unfold run. pose proof (status_block_requests
      (mkWorld (state s) [] (requests s))) as H.
    cbn [state requests with_widgets].
    destruct (status_block _) as [r w]. exact H.
  - pstep. cbn [done snd with_widgets requests].
    apply (f_equal snd) in E. cbn [snd] in *. subst s1.
    unfold run. pose proof (status_block_requests
      (mkWorld (state s) [] (requests s))) as H.
    cbn [state requests with_widgets].
    destruct (status_block _) as [r w]. exact H.
Qed.

(** The rest of the sidebar returns the page chosen, when it returns. *)
Lemma rest_returns (page : nav) (s s1 : screen) (n : string) :
  rest_block page s = (ok n, s1) -> n = nav_name page.
Proof.
  unfold sidebar_rest. pstep. unfold and_then at 1.
  destruct (run status_block _) as [[e | []] s2]; [ discriminate | ].
  pstep. cbn [done]. now intros [= <- _].
Qed.

Lemma users_block_requests (choice : nat) (s : screen) :
  requests (snd (users_block choice s))
  = (requests s ++ [get_request "/api/users"])%list.
Proof.
  unfold sidebar_users, get_users. rewrite then_api_get. cbv zeta.
  match goal with
  | |- requests (snd (?m ?s0)) = _ =>
      assert (K : quiet m) by pframe; rewrite (K s0)
  end.
  reflexivity.
Qed.

(** The user block when the fetch comes to a dict with no true success. *)
Lemma users_block_not_loaded (choice : nat) (s : screen)
    (fields : list (string * value)) :
  outcome server (inner s) (get_request "/api/users") = VDict fields ->
  truthy (find "success" fields VNone) = false ->
  users_block choice s
  = (ok tt,
     with_widgets (with_request s (get_request "/api/users"))
       [Basic (Error "Could not load users")]).
Proof.
  intros Hreply Hsucc. unfold sidebar_users, get_users.
  rewrite then_api_get, Hreply. cbn [get]. rewrite then_fail_ok, Hsucc.
  apply run_show.
Qed.

(** The user block when the fetch comes to a list of users whose options
    can be built. *)
Lemma users_block_selected (choice : nat) (s : screen)
    (fields : list (string * value)) (us : list value)
    (opts : list (key * string)) :
  outcome server (inner s) (get_request "/api/users") = VDict fields ->
  truthy (find "success" fields VNone) = true ->
  iterate (find "users" fields (VList [])) = ok us ->
  user_options_from float_repr container_repr [] us = ok opts ->
  exists r,
    users_block choice s
    = (r,
       mkScreen
         (mkSession
            (Some (value_of_key (selectbox (map fst opts) choice)))
            (role_after (user_role (state s)) us
               (selectbox (map fst opts) choice))
            (chat_messages (state s)))
         (widgets s ++ [Selectbox "Select User:" opts])
         (requests s ++ [get_request "/api/users"])).
Proof.
  intros Hreply Hsucc Hus Hopts. unfold sidebar_users, get_users.
  rewrite then_api_get, Hreply. cbn [get]. rewrite then_fail_ok, Hsucc.
  rewrite then_fail_ok, Hus, then_fail_ok, Hopts, then_fail_ok.
  cbv zeta. pstep. unfold role_after.
  cbn [state with_widgets with_request with_state].
  destruct (first_user us (selectbox (map fst opts) choice))
    as [e | [u | ]].
  - rewrite then_fail_raised. eexists. reflexivity.
  - rewrite then_fail_ok.
    destruct (truthy u).
    + destruct (subscript u "role") as [e | role].
      * rewrite then_fail_raised. eexists. reflexivity.
      * pstep. rewrite run_write_session. cbn. eexists. reflexivity.
    + destruct (subscript u "role"); eexists; reflexivity.
  - rewrite then_fail_ok. eexists. reflexivity.
Qed.

Lemma dict_set_keys {V} (k k0 : key) (v : V) (d : list (key * V)) :
  In k (map fst (dict_set k0 v d)) -> In k (map fst d) \/ k = k0.
Proof.
  induction d as [ | [k' v'] r IH]; cbn.
  - intros [<- | []]. now right.
  - destruct (key_eqb k' k0); cbn.
    + intros [<- | H]; left; [ now left | now right ].
    + intros [<- | H]; [ left; now left | ].
      destruct (IH H) as [Hin | ->]; [ left; now right | now right ].
Qed.

Lemma dict_set_nonempty {V} (k : key) (v : V) (d : list (key * V)) :
  dict_set k v d <> [].
Proof.
  destruct d as [ | [k' v'] r]; cbn; [ discriminate | ].
  destruct (key_eqb k' k); discriminate.
Qed.

Lemma options_keys (d opts : list (key * string)) (us : list value) :
  user_options_from float_repr container_repr d us = ok opts ->
  forall k, In k (map fst opts) ->
    In k (map fst d) \/
    exists u id, In u us /\ subscript u "id" = ok id /\ as_key id = ok k.
Proof.
  revert d. induction us as [ | u r IH]; intros d; cbn.
  - intros [= <-] k Hk. now left.
  - destruct (subscript u "id") as [e | id] eqn:Hid; [ discriminate | ].
    destruct (subscript u "name") as [e | name]; [ discriminate | ].
    destruct (subscript u "role") as [e | role]; [ discriminate | ].
    destruct (as_key id) as [e | k0] eqn:Hk0; [ discriminate | ].
    intros Hopts k Hk.
    destruct (IH _ Hopts k Hk) as [Hin | (u' & id' & Hu & Hid' & Hkey)].
    + apply dict_set_keys in Hin as [Hin | ->]; [ now left | ].
      right. exists u, id. repeat split; auto.
    + right. exists u', id'. repeat split; auto.
Qed.

Lemma options_nonempty (d opts : list (key * string)) (us : list value) :
  user_options_from float_repr container_repr d us = ok opts ->
  d <> [] \/ us <> [] -> opts <> [].
Proof.
  revert d. induction us as [ | u r IH]; intros d; cbn.
  - intros [= <-] [H | H]; [ exact H | contradiction ].
  - destruct (subscript u "id") as [e | id]; [ discriminate | ].
    destruct (subscript u "name") as [e | name]; [ discriminate | ].
    destruct (subscript u "role") as [e | role]; [ discriminate | ].
    destruct (as_key id) as [e | k0]; [ discriminate | ].
    intros Hopts _. apply (IH _ Hopts). left. apply dict_set_nonempty.
Qed.

Lemma selectbox_in (options : list key) (choice : nat) :
  options <> [] -> In (selectbox options choice) options.
Proof.
  destruct options as [ | first rest]; [ contradiction | intros _ ].
  unfold selectbox.
  destruct (Nat.lt_ge_cases choice (List.length (first :: rest))) as [H | H].
  - now apply nth_In.
  - rewrite nth_overflow by exact H. now left.
Qed.

Lemma first_user_found (us : list value) (k : key) (u : value) :
  first_user us k = ok (Some u) ->
  In u us /\ exists id, subscript u "id" = ok id /\ equals_key id k = true.
Proof.
  induction us as [ | v r IH]; cbn; [ discriminate | ].
  destruct (subscript v "id") as [e | id] eqn:Hid; [ discriminate | ].
  destruct (equals_key id k) eqn:Heq.
  - intros [= <-]. split; [ now left | now exists id ].
  - intro H. destruct (IH H) as [Hin Hex]. split; [ now right | exact Hex ].
Qed.

(** A value that has a key is a dict that is not empty. *)
Lemma subscript_truthy (u v : value) (k : string) :
  subscript u k = ok v -> truthy u = true.
Proof.
  destruct u as [ | | | | | | kvs]; cbn; try discriminate.
  destruct kvs as [ | kv rest]; cbn; [ discriminate | reflexivity ].
Qed.

(** The sidebar after its user block. *)
Lemma sidebar_after_users (choice : nat) (page : nav) (s s1 : screen)
    (r : res unit) :
  users_block choice
    (with_widgets s [Basic (Title "⚙️ Settings");
                     Basic (Subheader "👤 User Profile")]) = (r, s1) ->
  state (snd (sidebar choice page s)) = state s1.
Proof.
  intro H. rewrite display_sidebar_split. unfold and_then. rewrite H.
  destruct r as [e | []]; [ reflexivity | ].
  apply stateless_rest.
Qed.

(** X15.  After a fetch of users that succeeds, the user id of the
    session is the option selected: the id of one of the users fetched,
    and [None] when the list is empty, in which case the role stays as it
    was.  The history is not touched. *)
Theorem sidebar_selects_a_fetched_user
    (choice : nat) (page : nav) (s : screen)
    (fields : list (string * value)) (us : list value)
    (opts : list (key * string)) :
  outcome server (inner s) (get_request "/api/users") = VDict fields ->
  truthy (find "success" fields VNone) = true ->
  iterate (find "users" fields (VList [])) = ok us ->
  user_options_from float_repr container_repr [] us = ok opts ->
  let s' := snd (sidebar choice page s) in
  let selected := selectbox (map fst opts) choice in
  user_id (state s') = Some (value_of_key selected) /\
  chat_messages (state s') = chat_messages (state s) /\
  (us = [] ->
   user_id (state s') = Some VNone /\
   user_role (state s') = user_role (state s)) /\
  (us <> [] ->
   exists u id,
     In u us /\ subscript u "id" = ok id /\ as_key id = ok selected).
Proof.
  intros Hreply Hsucc Hus Hopts s' selected. subst s'.
  destruct (users_block_selected choice
              (with_widgets s [Basic (Title "⚙️ Settings");
                               Basic (Subheader "👤 User Profile")])
              fields us opts Hreply Hsucc Hus Hopts) as [r Hrun].
  rewrite (sidebar_after_users _ _ _ _ _ Hrun).
  cbn [state with_widgets user_id user_role chat_messages].
  split; [ reflexivity | split; [ reflexivity | split ] ].
  - intros ->. cbn in Hopts. injection Hopts as <-. now split.
  - intro Hne.
    assert (Hin : In selected (map fst opts)).
    { apply selectbox_in. intro Hnil. apply map_eq_nil in Hnil.
      exact (options_nonempty _ _ _ Hopts (or_intror Hne) Hnil). }
    destruct (options_keys _ _ _ Hopts _ Hin) as [[] | H]. exact H.
Qed.

(** X16.  After a fetch of users that succeeds, the role of the session
    is the role of the first user fetched whose id equals the id
    selected; when no user's id equals it, the role stays as it was. *)
Theorem sidebar_role_follows_selection
    (choice : nat) (page : nav) (s : screen)
    (fields : list (string * value)) (us : list value)
    (opts : list (key * string)) :
  outcome server (inner s) (get_request "/api/users") = VDict fields ->
  truthy (find "success" fields VNone) = true ->
  iterate (find "users" fields (VList [])) = ok us ->
  user_options_from float_repr container_repr [] us = ok opts ->
  let s' := snd (sidebar choice page s) in
  let selected := selectbox (map fst opts) choice in
  (forall u role,
     first_user us selected = ok (Some u) ->
     subscript u "role" = ok role ->
     user_role (state s') = Some role /\ In u us /\
     exists id, subscript u "id" = ok id /\ equals_key id selected = true) /\
  (first_user us selected = ok None ->
   user_role (state s') = user_role (state s)).
Proof.
  intros Hreply Hsucc Hus Hopts s' selected. subst s'.
  destruct (users_block_selected choice
              (with_widgets s [Basic (Title "⚙️ Settings");
                               Basic (Subheader "👤 User Profile")])
              fields us opts Hreply Hsucc Hus Hopts) as [r Hrun].
  rewrite (sidebar_after_users _ _ _ _ _ Hrun).
  cbn [state with_widgets user_id user_role chat_messages].
  unfold role_after. fold selected. split.
  - intros u role Hfound Hrole.
    destruct (first_user_found _ _ _ Hfound) as [Hin (id & Hid & Heq)].
    unfold ok in Hfound, Hrole. rewrite Hfound, Hrole.
    rewrite (subscript_truthy _ _ _ Hid).
    split; [ reflexivity | split; [ exact Hin | now exists id ] ].
  - unfold ok. now intros ->.
Qed.

(** X17.  The sidebar asks for the users first and for the health of the
    server second, once each and nothing else; it asks for the health in
    every run that returns, and then returns the page chosen. *)
Theorem sidebar_requests (choice : nat) (page : nav) (s : screen) :
  exists rest,
    requests (snd (sidebar choice page s))
    = (requests s ++ get_request "/api/users" :: rest)%list /\
    (rest = [] \/ rest = [get_request "/health"]) /\
    (forall n, fst (sidebar choice page s) = ok n ->
       rest = [get_request "/health"] /\ n = nav_name page).
Proof.
  rewrite display_sidebar_split. unfold and_then.
  pose proof (users_block_requests choice
    (with_widgets s [Basic (Title "⚙️ Settings");
                     Basic (Subheader "👤 User Profile")])) as Hreq.
  destruct (users_block choice _) as [[e | []] s1]; cbn [snd fst] in *.
  - exists []. split; [ exact Hreq | split; [ now left | discriminate ] ].
  - exists [get_request "/health"]. split; [ | split; [ now right | ] ].
    + rewrite rest_requests, Hreq. now rewrite <- app_assoc.
    + intros n Hn. split; [ reflexivity | ].
      destruct (rest_block page s1) as [rn s2] eqn:E. cbn in Hn. subst rn.
      exact (rest_returns _ _ _ _ E).
Qed.

Lemma outcome_unreachable (w : world) (r : request) :
  unreachable server ->
  outcome server w r
  = failure "Cannot connect to API server. Is it running on port 8000?".
Proof.
  intro H. destruct (H (sent w) r) as (e & He & Hc).
  unfold outcome, reported. now rewrite He, Hc.
Qed.

(** The sidebar when the server cannot be reached. *)
Lemma sidebar_unreachable_run (choice : nat) (page : nav) (s : screen) :
  unreachable server ->
  sidebar choice page s
  = (ok (nav_name page),
     mkScreen (state s)
       (widgets s ++ sidebar_without_users
        ++ [Basic (Error "❌ Cannot connect to API server")] ++ sidebar_foot)
       (requests s ++ [get_request "/api/users"; get_request "/health"])).
Proof.
  intro Hdown. rewrite display_sidebar_split.
  rewrite (then_returned _ _ _ _ _
             (users_block_not_loaded choice _ _
                (outcome_unreachable _ _ Hdown) eq_refl)).
  unfold sidebar_rest. pstep.
  assert (Hstatus : forall w,
    status_block w
    = (ok tt,
       with_page (with_sent (with_page w [Subheader "🔗 Server Status"])
                    (get_request "/health"))
         [Error "❌ Cannot connect to API server"])).
  { intro w. unfold display_sidebar_server_status.
    rewrite bind_show.
    rewrite (bind_returned _ _ _ _ _
               (api_call_supported server "/health" "GET" None _
                  (or_introl eq_refl))).
    change (request_for "/health" "GET" None) with (get_request "/health").
    now rewrite (outcome_unreachable _ _ Hdown). }
  rewrite (then_returned _ _ _ _ _ (run_returned _ _ _ _ (Hstatus _))).
  pstep.
  unfold done, with_widgets, inner, sidebar_without_users, sidebar_foot.
  cbn [state widgets requests with_request with_page with_sent session
       Streamlit.page sent map].
  f_equal. f_equal; repeat rewrite <- app_assoc; reflexivity.
Qed.

(** X18.  When the server cannot be reached, the sidebar still returns
    the page chosen: it shows "Could not load users" in place of the
    selectbox and the disconnected state, leaves the session as it was,
    and has sent its two requests. *)
Theorem sidebar_when_unreachable (choice : nat) (page : nav) (s : screen) :
  unreachable server ->
  fst (sidebar choice page s) = ok (nav_name page) /\
  state (snd (sidebar choice page s)) = state s /\
  widgets (snd (sidebar choice page s))
  = (widgets s ++ sidebar_without_users
     ++ [Basic (Error "❌ Cannot connect to API server")]
     ++ sidebar_foot)%list /\
  requests (snd (sidebar choice page s))
  = (requests s ++ [get_request "/api/users"; get_request "/health"])%list.
Proof.
  intro Hdown. rewrite (sidebar_unreachable_run choice page s Hdown).
  cbn [fst snd state widgets requests]. repeat split.
Qed.

End Sidebar2.

(** ** Further properties: [main] *)

Lemma refines_refl (st : session_state) : refines st st.
Proof. repeat split; auto. Qed.

Lemma refines_trans (a b c : session_state) :
  refines a b -> refines b c -> refines a c.
Proof.
  intros (H1 & H2 & H3) (K1 & K2 & K3). repeat split.
  - congruence.
  - auto.
  - auto.
Qed.

Lemma refines_all_set (a b : session_state) :
  refines a b -> all_set a -> all_set b.
Proof.
  intros (Hc & Hu & Hr) ((u & Hu0) & (r & Hr0) & (h & Hh0)).
  repeat split.
  - destruct (user_id b) as [u' | ] eqn:E; [ now exists u' | ].
    exfalso. apply Hu; [ now rewrite Hu0 | reflexivity ].
  - destruct (user_role b) as [r' | ] eqn:E; [ now exists r' | ].
    exfalso. apply Hr; [ now rewrite Hr0 | reflexivity ].
  - exists h. congruence.
Qed.

Lemma grows_of_stateless {A} (m : P A) : stateless m -> grows m.
Proof. intros H s. rewrite H. apply refines_refl. Qed.

Lemma grows_and_then {A B} (m : P A) (k : A -> P B) :
  grows m -> (forall a, grows (k a)) -> grows (and_then m k).
Proof.
  intros Hm Hk s. unfold and_then.
  specialize (Hm s). destruct (m s) as [[e | a] s1]; cbn in *.
  - exact Hm.
  - exact (refines_trans _ _ _ Hm (Hk a s1)).
Qed.

(** [st.session_state.user_id = v], then more. *)
Lemma grows_set_user_id {B} (v : value) (k : unit -> P B) :
  (forall a, grows (k a)) ->
  grows (and_then (run read_session) (fun s =>
         and_then (run (write_session
                          (mkSession (Some v) (user_role s)
                             (chat_messages s)))) k)).
Proof.
  intros Hk s. rewrite then_read_session, then_write_session.
  refine (refines_trans _ _ _ _ (Hk tt _)).
  cbn. repeat split; auto. discriminate.
Qed.

(** [st.session_state.user_role = role] *)
Lemma grows_set_user_role (role : value) :
  grows (and_then (run read_session) (fun s =>
         run (write_session
                (mkSession (user_id s) (Some role) (chat_messages s))))).
Proof.
  intros s. rewrite then_read_session, run_write_session.
  cbn. repeat split; auto. discriminate.
Qed.

Lemma initialize_session_world (w : world) :
  exists st,
    initialize_session w = (ok tt, mkWorld st (page w) (sent w)) /\
    all_set st /\
    chat_messages st
    = Some (match chat_messages (session w) with
            | Some h => h
            | None => []
            end).
Proof.
  destruct w as [[uid role history] shown sent0].
  destruct uid, role, history; cbn; eexists;
    (split; [ reflexivity | ]); unfold all_set; cbn;
    repeat split; try (eexists; reflexivity).
Qed.

Section Main.
Variable server : backend.
Variable float_repr : spec_float -> string.
Variable container_repr : value -> string.

#[local] Abbreviation sidebar :=
  (display_sidebar server float_repr container_repr).
#[local] Abbreviation app := (main server float_repr container_repr).
#[local] Abbreviation before_page :=
  (prelude server float_repr container_repr).

#[local] Hint Resolve keeps_api_call : frame.

Lemma grows_users_block (choice : nat) :
  grows (sidebar_users server float_repr container_repr choice).
Proof.
  unfold sidebar_users. cbv zeta.
  repeat (intros;
    match goal with
    | |- grows (and_then (run read_session)
                  (fun s => and_then (run (write_session _)) _)) =>
        apply grows_set_user_id
    | |- grows (and_then (run read_session)
                  (fun s => run (write_session _))) =>
        apply grows_set_user_role
    | |- grows (and_then _ _) => apply grows_and_then
    | |- grows (if ?b then _ else _) => destruct b
    | |- grows (match ?x with _ => _ end) => destruct x
    | |- grows _ =>
        apply grows_of_stateless; unfold get_users; solve [ pframe ]
    end).
Qed.

Lemma grows_sidebar (choice : nat) (page : nav) : grows (sidebar choice page).
Proof.
  intro s. rewrite display_sidebar_split.
  assert (G : grows (and_then
                       (sidebar_users server float_repr container_repr choice)
                       (fun _ => sidebar_rest server float_repr
                                   container_repr page))).
  { apply grows_and_then; [ apply grows_users_block | intro ].
    apply grows_of_stateless, stateless_rest. }
  exact (G _).
Qed.

Lemma stateless_manager :
  stateless (display_manager_dashboard server float_repr container_repr).
Proof. unfold display_manager_dashboard, get_manager_dashboard. pframe. Qed.

Lemma stateless_executive :
  stateless (display_executive_dashboard server float_repr container_repr).
Proof.
  unfold display_executive_dashboard, get_executive_dashboard. pframe.
Qed.

#[local] Hint Resolve stateless_manager stateless_executive
  keeps_display_nlp_chat : frame.

(** What [main] does once the sidebar has returned the name of a page. *)
Lemma main_split (choice : nat) (page : nav) (message : string)
    (send_button : bool) (s : screen) :
  app choice page message send_button s
  = and_then (before_page choice page)
      (fun name =>
         if (name =? "Dashboard")%string then
           and_then (run read_session) (fun st =>
           and_then (run (attribute "user_role" (user_role st))) (fun role =>
           if equals_key role (KStr "manager")
           then display_manager_dashboard server float_repr container_repr
           else display_executive_dashboard server float_repr
                  container_repr))
         else if (name =? "NLP Chat")%string then
           run (display_nlp_chat server float_repr container_repr message
                  send_button)
         else if (name =? "About")%string then
           and_then (run (show (Title "📖 About FASTMCP")))
             (fun _ => place (Markdown about_text))
         else done tt) s.
Proof. unfold main, prelude. now rewrite then_assoc. Qed.

Lemma sidebar_returns (choice : nat) (page : nav) (s s1 : screen)
    (name : string) :
  sidebar choice page s = (ok name, s1) -> name = nav_name page.
Proof.
  rewrite display_sidebar_split. unfold and_then.
  destruct (sidebar_users _ _ _ _ _) as [[e | []] s2]; [ discriminate | ].
  apply rest_returns.
Qed.

(** The session after the sidebar, in a run of [main]. *)
Lemma prelude_session (choice : nat) (page : nav) (s : screen) :
  all_set (state (snd (before_page choice page s))) /\
  chat_messages (state (snd (before_page choice page s)))
  = Some (match chat_messages (state s) with Some h => h | None => [] end).
Proof.
  unfold prelude.
  destruct (initialize_session_world (inner s)) as (st & Hinit & Hset & Hchat).
  rewrite (then_returned _ _ _ _ _ (run_returned _ _ _ _ Hinit)).
  match goal with
  | |- context [display_sidebar _ _ _ choice page ?s0] =>
      pose proof (grows_sidebar choice page s0) as G
  end.
  cbn [state session] in G |- *.
  split.
  - exact (refines_all_set _ _ G Hset).
  - destruct G as [G _]. rewrite G. exact Hchat.
Qed.

Lemma prelude_returns (choice : nat) (page : nav) (s s1 : screen)
    (name : string) :
  before_page choice page s = (ok name, s1) -> name = nav_name page.
Proof.
  unfold prelude, and_then.
  destruct (run initialize_session s) as [[e | []] s0]; [ discriminate | ].
  apply sidebar_returns.
Qed.

(** X19.  [main] picks what to show by the page the sidebar returns and,
    on the Dashboard page, by the role of the session after the sidebar:
    the manager dashboard for the text manager, the executive dashboard
    for any other role; the console on the NLP Chat page; a title and a
    text on the About page.  If the sidebar raises, [main] raises the
    same and shows no page. *)
Theorem main_routes (choice : nat) (page : nav) (message : string)
    (send_button : bool) (s : screen) :
  (forall name s1,
     before_page choice page s = (ok name, s1) ->
     exists role,
       user_role (state s1) = Some role /\
       app choice page message send_button s
       = match page with
         | Dashboard =>
             if equals_key role (KStr "manager")
             then display_manager_dashboard server float_repr
                    container_repr s1
             else display_executive_dashboard server float_repr
                    container_repr s1
         | NLPChat =>
             run (display_nlp_chat server float_repr container_repr
                    message send_button) s1
         | About =>
             (ok tt,
              with_widgets s1 [Basic (Title "📖 About FASTMCP");
                               Markdown about_text])
         end) /\
  (forall e s1,
     before_page choice page s = (inl e, s1) ->
     app choice page message send_button s = (inl e, s1)).
Proof.
  split.
  - intros name s1 Hpre.
    destruct (prelude_session choice page s) as [(_ & (role & Hrole) & _) _].
    rewrite Hpre in Hrole. cbn [snd] in Hrole.
    exists role. split; [ exact Hrole | ].
    rewrite main_split, (then_returned _ _ _ _ _ Hpre).
    rewrite (prelude_returns _ _ _ _ _ Hpre).
    destruct page; cbn [nav_name String.eqb Ascii.eqb Bool.eqb].
    + rewrite then_read_session, Hrole, then_attribute.
      now destruct (equals_key role (KStr "manager")).
    + reflexivity.
    + rewrite then_show. unfold place, with_widgets. cbn.
      now rewrite <- app_assoc.
  - intros e s1 Hpre. rewrite main_split. exact (then_raised _ _ _ _ _ Hpre).
Qed.

(** X20.  After a run of [main], however it ends, every field of the
    session is set and the history is the one the run started with (the
    empty one when none was set): no page of the application appends to
    it. *)
Theorem main_keeps_the_history (choice : nat) (page : nav) (message : string)
    (send_button : bool) (s : screen) :
  all_set (state (snd (app choice page message send_button s))) /\
  chat_messages (state (snd (app choice page message send_button s)))
  = Some (match chat_messages (state s) with Some h => h | None => [] end).
Proof.
  rewrite main_split.
  destruct (prelude_session choice page s) as [Hset Hchat].
  destruct (before_page choice page s) as [[e | name] s1] eqn:E;
    cbn [snd] in Hset, Hchat.
  { rewrite (then_raised _ _ _ _ _ E). now split. }
  rewrite (then_returned _ _ _ _ _ E).
  match goal with
  | |- all_set (state (snd (?m s1))) /\ _ =>
      assert (K : stateless m)
  end.
  { destruct (name =? "Dashboard")%string;
      [ | destruct (name =? "NLP Chat")%string;
          [ | destruct (name =? "About")%string ] ];
      pframe. }
  rewrite (K s1). now split.
Qed.

(** X21.  With the server out of reach, a run of [main] on the
    Dashboard page returns: under the sidebar with its two errors it
    shows the title of the dashboard of the session's role and one error
    line with the connection text, after three requests: users, health,
    dashboard. *)
Theorem main_dashboard_when_unreachable
    (choice : nat) (message : string) (send_button : bool) (s : screen) :
  unreachable server ->
  exists uid role,
    user_id (session (snd (initialize_session (inner s)))) = Some uid /\
    user_role (session (snd (initialize_session (inner s)))) = Some role /\
    app choice Dashboard message send_button s
    = (ok tt,
       mkScreen (session (snd (initialize_session (inner s))))
         (widgets s ++ sidebar_without_users
          ++ [Basic (Error "❌ Cannot connect to API server")]
          ++ sidebar_foot
          ++ [Basic (Title (if equals_key role (KStr "manager")
                            then "👔 Manager Dashboard"
                            else "👤 Executive Dashboard"));
              Basic (Error "Error loading dashboard: Cannot connect to API server. Is it running on port 8000?")])
         (requests s
          ++ [get_request "/api/users"; get_request "/health";
              get_request
                ((if equals_key role (KStr "manager")
                  then "/api/manager/dashboard/"
                  else "/api/executive/dashboard/")
                 ++ str float_repr container_repr uid)])).
Proof.
  intro Hdown.
  destruct (initialize_session_world (inner s))
    as (st & Hinit & ((uid & Huid) & (role & Hrole) & _) & _).
  rewrite Hinit. cbn [snd session].
  exists uid, role. split; [ exact Huid | split; [ exact Hrole | ] ].
  rewrite main_split. unfold prelude. rewrite then_assoc.
  rewrite (then_returned _ _ _ _ _ (run_returned _ _ _ _ Hinit)).
  rewrite (then_returned _ _ _ _ _
             (sidebar_unreachable_run server float_repr container_repr
                choice Dashboard _ Hdown)).
  cbn [nav_name String.eqb Ascii.eqb Bool.eqb].
  rewrite then_read_session. cbn [state session].
  rewrite Hrole, then_attribute.
  destruct (equals_key role (KStr "manager")).
  - match goal with
    | |- display_manager_dashboard _ _ _ ?s0 = _ =>
        rewrite (manager_dashboard_error server float_repr container_repr
                   s0 uid
                   [("success", VBool false);
                    ("error", VStr "Cannot connect to API server. Is it running on port 8000?")]
                   Huid eq_refl
                   (outcome_unreachable server _ _ Hdown))
    end.
    unfold with_widgets, with_request, inner.
    cbn [state widgets requests session Streamlit.page sent map find lookup
         String.eqb Ascii.eqb Bool.eqb str].
    f_equal. f_equal; repeat rewrite <- app_assoc; reflexivity.
  - match goal with
    | |- display_executive_dashboard _ _ _ ?s0 = _ =>
        rewrite (executive_dashboard_error server float_repr container_repr
                   s0 uid
                   [("success", VBool false);
                    ("error", VStr "Cannot connect to API server. Is it running on port 8000?")]
                   Huid eq_refl
                   (outcome_unreachable server _ _ Hdown))
    end.
    unfold with_widgets, with_request, inner.
    cbn [state widgets requests session Streamlit.page sent map find lookup
         String.eqb Ascii.eqb Bool.eqb str].
    f_equal. f_equal; repeat rewrite <- app_assoc; reflexivity.
Qed.

(** The history after a run of [main] is the history before it, the empty
    one when none was set. *)
Lemma main_history (choice : nat) (page : nav) (message : string)
    (send_button : bool) (s : screen) :
  chat_messages (state (snd (app choice page message send_button s)))
  = Some (match chat_messages (state s) with Some h => h | None => [] end).
Proof.
  rewrite main_split.
  destruct (prelude_session choice page s) as [_ Hchat].
  destruct (before_page choice page s) as [[e | name] s1] eqn:E;
    cbn [snd] in Hchat.
  { now rewrite (then_raised _ _ _ _ _ E). }
  rewrite (then_returned _ _ _ _ _ E).
  match goal with
  | |- chat_messages (state (snd (?m s1))) = _ => assert (K : stateless m)
  end.
  { destruct (name =? "Dashboard")%string;
      [ | destruct (name =? "NLP Chat")%string;
          [ | destruct (name =? "About")%string ] ];
      pframe. }
  now rewrite (K s1).
Qed.

(** A session without a record has none after any number of runs. *)
Lemma script_runs_keep_no_record (l : list interaction) (s : screen) :
  chat_messages (state s) = None \/ chat_messages (state s) = Some [] ->
  chat_messages (state (script_runs server float_repr container_repr l s))
  = None \/
  chat_messages (state (script_runs server float_repr container_repr l s))
  = Some [].
Proof.
  revert s. induction l as [ | i rest IH]; intros s H; cbn [script_runs];
    [ exact H | ].
  apply IH. right. rewrite main_history. cbn [next_screen state].
  now destruct H as [-> | ->].
Qed.

(** C7, on the code.  In a new session, after any number of runs of the
    script, whatever was typed, sent and answered in them, the history
    is empty, and a run on the NLP Chat page that returns ends with the
    heading of the history and the line that says there is no message:
    the view never shows a record, so it does not show the last five. *)
Theorem history_view_stays_empty
    (before : list interaction) (choice : nat) (message : string)
    (send_button : bool) (s : screen) :
  chat_messages (state s) = None ->
  chat_messages
    (state (snd (console_after server float_repr container_repr before
                   choice message send_button s)))
  = Some [] /\
  (fst (console_after server float_repr container_repr before choice
          message send_button s) = ok tt ->
   exists above,
     widgets (snd (console_after server float_repr container_repr before
                     choice message send_button s))
     = (above
        ++ [Basic (Subheader "📝 Message History");
            Basic (Info "No messages yet. Send a message to get started!")])%list).
Proof.
  intro Hnew. unfold console_after.
  pose proof (script_runs_keep_no_record before s (or_introl Hnew)) as Hruns.
  set (s' := script_runs server float_repr container_repr before s) in *.
  assert (Hstart :
    match chat_messages (state (next_screen s')) with
    | Some h => h
    | None => []
    end = []).
  { cbn [next_screen state]. now destruct Hruns as [-> | ->]. }
  split.
  - rewrite main_history. now rewrite Hstart.
  - rewrite main_split.
    destruct (prelude_session choice NLPChat (next_screen s')) as [_ Hchat].
    rewrite Hstart in Hchat.
    destruct (before_page choice NLPChat (next_screen s')) as [[e | name] s1]
      eqn:E; cbn [snd] in Hchat.
    { rewrite (then_raised _ _ _ _ _ E). discriminate. }
    rewrite (then_returned _ _ _ _ _ E), (prelude_returns _ _ _ _ _ E).
    cbn [nav_name String.eqb Ascii.eqb Bool.eqb].
    pose proof (console_ends_with_history_view server float_repr
                  container_repr message send_button (inner s1) [] Hchat)
      as Hview.
    unfold run. unfold inner in Hview.
    destruct (display_nlp_chat server float_repr container_repr message
                send_button (mkWorld (state s1) [] (requests s1)))
      as [r w] eqn:Hrun.
    cbn [fst snd widgets Streamlit.page] in Hview |- *.
    intro Hr. destruct (Hview Hr) as [shown Hshown].
    exists (widgets s1 ++ map Basic shown)%list.
    rewrite Hshown. unfold history_view. rewrite app_nil_l, map_app.
    cbn [map]. now rewrite app_assoc.
Qed.

End Main.

(** ** Runs of the pages on given servers *)

Lemma refusing_is_unreachable : unreachable refusing.
Proof.
  intros history r. exists (mkExn ConnectionError "Connection refused").
  now split.
Qed.

Lemma dashboards_show_only_the_error_witness :
  display_manager_dashboard
    (replying 200 (ok (VDict [("success", VBool false);
                              ("error", VStr "Manager not found")])))
    no_float_repr no_container_repr ready_screen
  = (ok tt,
     mkScreen (session_with [])
       [Basic (Title "👔 Manager Dashboard");
        Basic (Error "Error loading dashboard: Manager not found")]
       [get_request "/api/manager/dashboard/1"]).
Proof.
  exact (proj1 (dashboards_show_only_the_error
                  (replying 200 (ok (VDict [("success", VBool false);
                                            ("error", VStr "Manager not found")])))
                  no_float_repr no_container_repr ready_screen (VInt 1)
                  [("success", VBool false);
                   ("error", VStr "Manager not found")]
                  eq_refl eq_refl) eq_refl).
Defined.

Lemma dashboards_fetch_once_witness :
  requests (snd (display_executive_dashboard
                   (replying 200 (ok (VList [])))
                   no_float_repr no_container_repr ready_screen))
  = [get_request "/api/executive/dashboard/1"].
Proof.
  exact (proj1 (proj2 (dashboards_fetch_once (replying 200 (ok (VList [])))
                         no_float_repr no_container_repr ready_screen
                         (VInt 1) eq_refl))).
Defined.

Lemma sidebar_selects_witness :
  user_id (state (snd (display_sidebar team_server no_float_repr
                         no_container_repr 1 Dashboard ready_screen)))
  = Some (VInt 2).
Proof.
  exact (proj1 (sidebar_selects_a_fetched_user team_server no_float_repr
                  no_container_repr 1 Dashboard ready_screen
                  [("success", VBool true); ("users", VList team)] team
                  [(KInt 1, "Asha (manager)"); (KInt 2, "Ravi (executive)")]
                  eq_refl eq_refl eq_refl eq_refl)).
Defined.

Lemma sidebar_role_witness :
  user_role (state (snd (display_sidebar team_server no_float_repr
                           no_container_repr 1 Dashboard ready_screen)))
  = Some (VStr "executive").
Proof.
  exact (proj1 (proj1 (sidebar_role_follows_selection team_server
                         no_float_repr no_container_repr 1 Dashboard
                         ready_screen
                         [("success", VBool true); ("users", VList team)]
                         team
                         [(KInt 1, "Asha (manager)");
                          (KInt 2, "Ravi (executive)")]
                         eq_refl eq_refl eq_refl eq_refl)
                  (user 2 "Ravi" "executive") (VStr "executive")
                  eq_refl eq_refl)).
Defined.

Lemma sidebar_requests_witness :
  exists rest,
    requests (snd (display_sidebar team_server no_float_repr
                     no_container_repr 0 About ready_screen))
    = get_request "/api/users" :: rest /\
    rest = [get_request "/health"].
Proof.
  destruct (sidebar_requests team_server no_float_repr no_container_repr
              0 About ready_screen) as (rest & Hreq & _ & Hok).
  exists rest. split; [ exact Hreq | ].
  exact (proj1 (Hok "About" eq_refl)).
Defined.

Lemma sidebar_when_unreachable_witness :
  fst (display_sidebar refusing no_float_repr no_container_repr 0 NLPChat
         ready_screen) = ok "NLP Chat" /\
  requests (snd (display_sidebar refusing no_float_repr no_container_repr
                   0 NLPChat ready_screen))
  = [get_request "/api/users"; get_request "/health"].
Proof.
  destruct (sidebar_when_unreachable refusing no_float_repr
              no_container_repr 0 NLPChat ready_screen
              refusing_is_unreachable) as (Hret & _ & _ & Hreq).
  split; [ exact Hret | exact Hreq ].
Defined.

Lemma main_routes_witness :
  fst (main team_server no_float_repr no_container_repr 0 About
         EmptyString false (mkScreen fresh_session [] [])) = ok tt.
Proof.
  destruct (prelude team_server no_float_repr no_container_repr 0 About
              (mkScreen fresh_session [] [])) as [[e | name] s1] eqn:E.
  - vm_compute in E. discriminate E.
  - destruct (proj1 (main_routes team_server no_float_repr
                       no_container_repr 0 About EmptyString false
                       (mkScreen fresh_session [] [])) name s1 E)
      as (role & _ & Hmain).
    now rewrite Hmain.
Defined.

Lemma history_view_stays_empty_witness :
  posts (requests (script_runs sales_server no_float_repr no_container_repr
                     [submission "C1"; submission "C2"; submission "C3"]
                     (mkScreen fresh_session [] [])))
  = [posted "C1"; posted "C2"; posted "C3"] /\
  chat_messages
    (state (snd (console_after sales_server no_float_repr no_container_repr
                   [submission "C1"; submission "C2"; submission "C3"]
                   0 EmptyString false (mkScreen fresh_session [] []))))
  = Some [] /\
  exists above,
    widgets (snd (console_after sales_server no_float_repr no_container_repr
                    [submission "C1"; submission "C2"; submission "C3"]
                    0 EmptyString false (mkScreen fresh_session [] [])))
    = (above
       ++ [Basic (Subheader "📝 Message History");
           Basic (Info "No messages yet. Send a message to get started!")])%list.
Proof.
  destruct (history_view_stays_empty sales_server no_float_repr
              no_container_repr
              [submission "C1"; submission "C2"; submission "C3"]
              0 EmptyString false (mkScreen fresh_session [] []) eq_refl)
    as [Hhistory Hview].
  split; [ vm_compute; reflexivity | ].
  split; [ exact Hhistory | ].
  apply Hview. vm_compute. reflexivity.
Defined.

Lemma main_dashboard_when_unreachable_witness :
  fst (main refusing no_float_repr no_container_repr 0 Dashboard
         EmptyString false (mkScreen fresh_session [] [])) = ok tt /\
  requests (snd (main refusing no_float_repr no_container_repr 0 Dashboard
                   EmptyString false (mkScreen fresh_session [] [])))
  = [get_request "/api/users"; get_request "/health";
     get_request "/api/manager/dashboard/1"].
Proof.
  destruct (main_dashboard_when_unreachable refusing no_float_repr
              no_container_repr 0 EmptyString false
              (mkScreen fresh_session [] []) refusing_is_unreachable)
    as (uid & role & Huid & Hrole & Hmain).
  rewrite Hmain. cbn [fst snd requests].
  injection Huid as <-. injection Hrole as <-.
  split; reflexivity.
Defined.

(** A user list that is empty: the selectbox has no option, the user id
    of the session becomes [None], and the dashboard asks for the user
    "None". *)
Example empty_user_list_selects_none :
  let run :=
    main (routing [("/api/users", users_reply []); ("/health", health_reply)])
      no_float_repr no_container_repr 0 Dashboard EmptyString false
      (mkScreen fresh_session [] []) in
  user_id (state (snd run)) = Some VNone /\
  requests (snd run)
  = [get_request "/api/users"; get_request "/health";
     get_request "/api/manager/dashboard/None"].
Proof. split; reflexivity. Qed.

(** ** Further properties: the dashboards on a bare reply *)

Section DashboardDefaults.
Variable server : backend.
Variable float_repr : spec_float -> string.
Variable container_repr : value -> string.

#[local] Abbreviation text_of := (str float_repr container_repr).

Lemma display_metrics_defaults (s : screen) :
  display_metrics float_repr container_repr (VDict []) s
  = (ok tt, with_widgets s zero_metrics).
Proof.
  unfold display_metrics, st_metric.
  cbn [get find lookup]. pstep.
  change (format_comma_f0 (VInt 0)) with (@ok string "0").
  pstep. cbn [str]. change (decimal 0) with "0".
  unfold place, with_widgets, zero_metrics. cbn [state widgets requests].
  now rewrite <- app_assoc.
Qed.

(** X22.  A dashboard reply with a true [success] and neither
    [statistics] nor [projects] is shown with the defaults: the four
    metrics at zero and the message that no project was found; the
    manager dashboard adds its two summaries, at zero as well. *)
Theorem dashboards_defaults_for_bare_reply
    (s : screen) (uid : value) (fields : list (string * value)) :
  user_id (state s) = Some uid ->
  truthy (find "success" fields VNone) = true ->
  lookup "statistics" fields = None ->
  lookup "projects" fields = None ->
  (outcome server (inner s)
     (get_request ("/api/executive/dashboard/" ++ text_of uid))
   = VDict fields ->
   display_executive_dashboard server float_repr container_repr s
   = (ok tt,
      with_widgets
        (with_request s
           (get_request ("/api/executive/dashboard/" ++ text_of uid)))
        ([Basic (Title "👤 Executive Dashboard");
          Basic (Subheader "📊 Your Projects")]
         ++ zero_metrics
         ++ [Basic (Subheader "📁 My Projects");
             Basic (Info "No projects found")]))) /\
  (outcome server (inner s)
     (get_request ("/api/manager/dashboard/" ++ text_of uid))
   = VDict fields ->
   display_manager_dashboard server float_repr container_repr s
   = (ok tt,
      with_widgets
        (with_request s
           (get_request ("/api/manager/dashboard/" ++ text_of uid)))
        ([Basic (Title "👔 Manager Dashboard");
          Basic (Subheader "📊 Key Metrics")]
         ++ zero_metrics
         ++ [Basic (Subheader "📁 All Projects");
             Basic (Info "No projects found")]
         ++ zero_summaries))).
Proof.
  intros Huid Hsucc Hstats Hprojects.
  assert (Hs : find "statistics" fields (VDict []) = VDict [])
    by (unfold find; now rewrite Hstats).
  assert (Hp : find "projects" fields (VList []) = VList [])
    by (unfold find; now rewrite Hprojects).
  assert (Htable : forall s0,
    run (display_projects_table (VList [])) s0
    = (ok tt, with_widgets s0 [Basic (Info "No projects found")]))
    by reflexivity.
  split; intro Hreply.
  - unfold display_executive_dashboard, get_executive_dashboard.
    pstep. cbn [state with_widgets]. rewrite Huid, then_attribute.
    pstep. rewrite Hreply. cbn [get]. pstep.
    rewrite Hsucc. cbn [negb]. pstep. rewrite Hs.
    rewrite (then_returned _ _ _ _ _ (display_metrics_defaults _)).
    pstep. rewrite Hp, Htable.
    unfold with_widgets, with_request. cbn [state widgets requests].
    f_equal. f_equal. repeat rewrite <- app_assoc. reflexivity.
  - unfold display_manager_dashboard, get_manager_dashboard.
    pstep. cbn [state with_widgets]. rewrite Huid, then_attribute.
    pstep. rewrite Hreply. cbn [get]. pstep.
    rewrite Hsucc. cbn [negb]. pstep. rewrite Hs.
    rewrite (then_returned _ _ _ _ _ (display_metrics_defaults _)).
    pstep. rewrite Hp.
    rewrite (then_returned _ _ _ _ _ (Htable _)).
    pstep. cbn [get find lookup]. pstep.
    change (format_comma_f0 (VInt 0)) with (@ok string "0").
    pstep. cbn [str]. change (decimal 0) with "0".
    cbn [get find lookup]. pstep. cbn [str]. change (decimal 0) with "0".
    rewrite run_show.
    unfold with_widgets, with_request, zero_summaries.
    cbn [state widgets requests].
    f_equal. f_equal. repeat rewrite <- app_assoc. reflexivity.
Qed.

End DashboardDefaults.

Lemma dashboards_defaults_witness :
  display_executive_dashboard
    (replying 200 (ok (VDict [("success", VBool true)])))
    no_float_repr no_container_repr ready_screen
  = (ok tt,
     mkScreen (session_with [])
       ([Basic (Title "👤 Executive Dashboard");
         Basic (Subheader "📊 Your Projects")]
        ++ zero_metrics
        ++ [Basic (Subheader "📁 My Projects");
            Basic (Info "No projects found")])
       [get_request "/api/executive/dashboard/1"]).
Proof.
  exact (proj1 (dashboards_defaults_for_bare_reply
                  (replying 200 (ok (VDict [("success", VBool true)])))
                  no_float_repr no_container_repr ready_screen (VInt 1)
                  [("success", VBool true)]
                  eq_refl eq_refl eq_refl eq_refl) eq_refl).
Defined.
